(** * Conversation-activity bucketizer and list views of the user dashboard

    Shallow embedding of
    - [DashboardEntry.chartData] (the [useMemo] in src/unnamed/part_001),
    - [calculateAverageRating] (src/unnamed/part_002),
    - the sort-then-slice pagination of [RecentConversations], [NotesPage]
      and [UserBackgroundInfo], and their navigation buttons
      (src/src/components),
    - the loading progress of [App] (src/unnamed/part_002),
    - [getStats] and the fetch-then-render flow of [DashboardEntry]
      (src/unnamed/part_000, part_001).

    Millisecond instants are integers ([Z]); a JS [Date] is [option Z], where
    [None] is an Invalid Date whose [getTime()] is [NaN].  Every comparison
    with [NaN] is false, which is how [>=] and [<=] on dates are modelled. *)

From Stdlib Require Import String Ascii.
From Stdlib Require Import ZArith List Bool Lia.
From Stdlib Require Import Sorting.Sorted Sorting.Permutation.
From Stdlib Require Import QArith.
Import ListNotations.
Open Scope Z_scope.

(** ** Data model (src/unnamed/part_000) *)

Record Conversation := mkConversation {
  conversation_id : string;
  user_id : string;
  created_at : string
}.

(** [type TimeRange = '12h' | '1d' | '7d' | '30d'] *)
Inductive TimeRange := R12h | R1d | R7d | R30d.

(** [{ label: string; count: number }], the value type of [buckets]. *)
Record Bucket := mkBucket { label : string; count : nat }.

(** [Map<number, Bucket>]: a JS [Map] keeps insertion order; [set] on a
    present key replaces the value in place, on a new key appends. *)
Definition BucketMap := list (Z * Bucket).

Fixpoint map_set (k : Z) (v : Bucket) (m : BucketMap) : BucketMap :=
  match m with
  | [] => [(k, v)]
  | (k', v') :: m' => if Z.eqb k k' then (k, v) :: m' else (k', v') :: map_set k v m'
  end.

Fixpoint map_get (k : Z) (m : BucketMap) : option Bucket :=
  match m with
  | [] => None
  | (k', v') :: m' => if Z.eqb k k' then Some v' else map_get k m'
  end.

(** [bucket.count += 1] on the object stored under [k]. *)
Fixpoint map_incr (k : Z) (m : BucketMap) : BucketMap :=
  match m with
  | [] => []
  | (k', v') :: m' =>
      if Z.eqb k k' then (k', mkBucket (label v') (S (count v'))) :: m'
      else (k', v') :: map_incr k m'
  end.

(** One element of [data] before the timestamp is removed. *)
Record Row := mkRow { time : string; conversations : nat; timestamp : Z }.

(** ** Array.prototype.sort with a numeric comparator (stable) *)

Section Sort.
Context {A : Type} (cmp : A -> A -> Z).

Fixpoint insert_by (x : A) (l : list A) : list A :=
  match l with
  | [] => [x]
  | y :: l' => if cmp x y <=? 0 then x :: l else y :: insert_by x l'
  end.

Fixpoint sort_by (l : list A) : list A :=
  match l with
  | [] => []
  | x :: l' => insert_by x (sort_by l')
  end.
End Sort.

(** ** The bucketizer *)

(** [Math.floor(t / intervalMs) * intervalMs].  For the instants and
    intervals of this program the float quotient is exact enough that the
    floor equals the integer floor division. *)
Definition floor_key (t intervalMs : Z) : Z := (t / intervalMs) * intervalMs.

Section Bucketizer.

(** [new Date(s).getTime()]; [None] stands for [NaN]. *)
Variable parseDate : string -> option Z.
(** [date.toLocaleTimeString('en-US', { hour: '2-digit', minute: '2-digit' })] *)
Variable timeLabel : Z -> string.
(** [date.toLocaleDateString('en-US', { month: 'short', day: 'numeric' })] *)
Variable dateLabel : Z -> string.

Record RangeParams := mkRangeParams {
  startTime : Z;
  intervalMs : Z;
  formatLabel : Z -> string
}.

(** The [switch (timeRange)]. *)
Definition range_params (r : TimeRange) (now : Z) : RangeParams :=
  match r with
  | R12h => mkRangeParams (now - 12 * 60 * 60 * 1000) (60 * 60 * 1000) timeLabel
  | R1d => mkRangeParams (now - 24 * 60 * 60 * 1000) (2 * 60 * 60 * 1000) timeLabel
  | R7d => mkRangeParams (now - 7 * 24 * 60 * 60 * 1000) (24 * 60 * 60 * 1000) dateLabel
  | R30d => mkRangeParams (now - 30 * 24 * 60 * 60 * 1000) (24 * 60 * 60 * 1000) dateLabel
  end.

(** [convDate >= startTime && convDate <= now], false on [NaN]. *)
Definition in_range (start now : Z) (c : Conversation) : bool :=
  match parseDate (created_at c) with
  | Some t => (start <=? t) && (t <=? now)
  | None => false
  end.

(** The initialisation [while (currentTime <= now)] loop.  [fuel] only bounds
    the recursion; the guard decides when the loop stops (see
    [init_loop_enough] below). *)
Fixpoint init_loop (fuel : nat) (intervalMs now : Z) (fmt : Z -> string)
    (currentTime : Z) (m : BucketMap) : BucketMap :=
  match fuel with
  | O => m
  | S fuel' =>
      if currentTime <=? now then
        init_loop fuel' intervalMs now fmt (currentTime + intervalMs)
          (map_set (floor_key currentTime intervalMs) (mkBucket (fmt currentTime) 0) m)
      else m
  end.

Definition loop_fuel (intervalMs now currentTime : Z) : nat :=
  S (Z.to_nat ((now - currentTime) / intervalMs)).

Definition init_buckets (p : RangeParams) (now : Z) : BucketMap :=
  init_loop (loop_fuel (intervalMs p) now (startTime p)) (intervalMs p) now
    (formatLabel p) (startTime p) [].

(** The body of [filteredConversations.forEach]. *)
Definition count_conv (intervalMs : Z) (m : BucketMap) (c : Conversation) : BucketMap :=
  match parseDate (created_at c) with
  | Some t =>
      let k := floor_key t intervalMs in
      match map_get k m with
      | Some _ => map_incr k m
      | None => m
      end
  | None => m
  end.

Definition to_rows (m : BucketMap) : list Row :=
  map (fun '(k, b) => mkRow (label b) (count b) k) m.

(** [data] before its final [.map] that drops [timestamp]. *)
Definition chartRows (stats : option (list Conversation)) (r : TimeRange) (now : Z)
    : list Row :=
  match stats with
  | None => []
  | Some history =>
      let p := range_params r now in
      let filtered := filter (in_range (startTime p) now) history in
      let buckets := fold_left (count_conv (intervalMs p)) filtered (init_buckets p now) in
      sort_by (fun a b => timestamp a - timestamp b) (to_rows buckets)
  end.

Definition chartData (stats : option (list Conversation)) (r : TimeRange) (now : Z)
    : list (string * nat) :=
  map (fun row => (time row, conversations row)) (chartRows stats r now).

End Bucketizer.

(** ** Auxiliary views of the bucketizer's state *)

Definition keys (m : BucketMap) : list Z := map fst m.

Definition sum_counts (m : BucketMap) : nat := list_sum (map (fun kv => count (snd kv)) m).

Definition labels (m : BucketMap) : list (Z * string) :=
  map (fun kv => (fst kv, label (snd kv))) m.

(** ** The initialisation loop, unrolled *)

(** The buckets created by [n] turns of the loop body from [cur]. *)
Fixpoint gen (I : Z) (fmt : Z -> string) (n : nat) (cur : Z) : BucketMap :=
  match n with
  | O => []
  | S n' => (floor_key cur I, mkBucket (fmt cur) 0) :: gen I fmt n' (cur + I)
  end.

(** Number of turns the [while (currentTime <= now)] loop makes from [cur]. *)
Definition iters (I now cur : Z) : nat :=
  if now <? cur then O else S (Z.to_nat ((now - cur) / I)).

(** Number of whole intervals in each look-back window. *)
Definition steps (r : TimeRange) : nat :=
  match r with R12h => 12 | R1d => 12 | R7d => 7 | R30d => 30 end.

(** The bucket map once every filtered conversation has been counted. *)
Definition final_buckets (pd : string -> option Z) (tl dl : Z -> string)
    (history : list Conversation) (r : TimeRange) (now : Z) : BucketMap :=
  let p := range_params tl dl r now in
  fold_left (count_conv pd (intervalMs p))
    (filter (in_range pd (startTime p) now) history) (init_buckets p now).

(** A 24-hour ["HH:mm"] rendering in UTC: an hour-and-minute formatter like
    the one of the '12h' and '1d' ranges, with the time zone fixed. *)
Definition digit (n : Z) : string := String (ascii_of_nat (48 + Z.to_nat n)) EmptyString.

Definition two_digits (n : Z) : string := (digit (n / 10) ++ digit (n mod 10))%string.

Definition hhmm_utc (t : Z) : string :=
  let minutes := (t / 60000) mod 1440 in
  (two_digits (minutes / 60) ++ ":" ++ two_digits (minutes mod 60))%string.

(** * Paginated lists ([RecentConversations], [NotesPage]) *)

Section Paging.
Context {A : Type}.
(** [new Date(x).getTime()] of the item's timestamp field. *)
Variable getTime : A -> Z.
Variable perPage : nat.

(** [[...items].sort((a, b) => getTime(b) - getTime(a))] *)
Definition sort_desc (items : list A) : list A :=
  sort_by (fun a b => getTime b - getTime a) items.

(** [l.slice(b, e)] for [0 <= b <= e]. *)
Definition slice (l : list A) (b e : nat) : list A := firstn (e - b)%nat (skipn b l).

(** [Math.ceil(items.length / perPage)] *)
Definition totalPages (items : list A) : nat := ((length items + perPage - 1) / perPage)%nat.

(** The page shown for [currentPage]. *)
Definition currentItems (items : list A) (currentPage : nat) : list A :=
  let indexOfLast := (currentPage * perPage)%nat in
  let indexOfFirst := (indexOfLast - perPage)%nat in
  slice (sort_desc items) indexOfFirst indexOfLast.

End Paging.

(** * Conversations (src/unnamed/part_002, RecentConversations.tsx) *)

Module Conversations.

Local Open Scope Q_scope.

(** [interface ConversationInfo]; a number parsed from JSON is a rational,
    an absent or [null] [quality_rating] is [None]. *)
Record ConversationInfo := mkConversationInfo {
  article_path : string;
  conversation_id : string;
  topic : string;
  generated_at : string;
  quality_rating : option Q;
  user_id : string
}.

(** JS truthiness of [c.quality_rating]: [undefined] and [0] are falsy. *)
Definition truthy (r : option Q) : bool :=
  match r with Some q => negb (Qeq_bool q 0) | None => false end.

(** [conv.quality_rating || 0] *)
Definition or_zero (r : option Q) : Q :=
  match r with Some q => if truthy r then q else 0 | None => 0 end.

Definition ratingsCount (conversations : list ConversationInfo) : nat :=
  length (filter (fun c => truthy (quality_rating c)) conversations).

Definition calculateAverageRating (conversations : list ConversationInfo) : Q :=
  let ratingsCount := ratingsCount conversations in
  if Nat.eqb ratingsCount 0 then 0 else
  let totalRating :=
    fold_left (fun sum conv => sum + or_zero (quality_rating conv)) conversations 0 in
  totalRating / inject_Z (Z.of_nat ratingsCount).

(** The sum of the ratings, a missing one counting 0. *)
Definition rating_sum (conversations : list ConversationInfo) : Q :=
  fold_right (fun c acc =>
    match quality_rating c with Some q => q | None => 0 end + acc) 0 conversations.

(** [RecentConversations]: 50 per page, newest [generated_at] first. *)
Definition conversationsPerPage : nat := 50.

Definition currentConversations (getTime : string -> Z)
    (conversations : list ConversationInfo) (currentPage : nat) : list ConversationInfo :=
  currentItems (fun c => getTime (generated_at c)) conversationsPerPage conversations currentPage.

End Conversations.

(** * Notes (NotesPage.tsx) *)

Module Notes.

Record NoteInfo := mkNoteInfo {
  file_name : string;
  created_at : string;
  last_modified : option string;
  user_id : string
}.

(** [NotesPage]: 25 per page, newest [created_at] first. *)
Definition notesPerPage : nat := 25.

Definition currentNotes (getTime : string -> Z) (notes : list NoteInfo) (currentPage : nat)
    : list NoteInfo :=
  currentItems (fun n => getTime (created_at n)) notesPerPage notes currentPage.

End Notes.

(** * Page navigation (RecentConversations.tsx, NotesPage.tsx, UserBackgroundInfo.tsx) *)

(** The buttons: [setCurrentPage(1)], [p => Math.max(1, p - 1)],
    [p => Math.min(totalPages, p + 1)], [setCurrentPage(totalPages)]. *)
Inductive PageAction := FirstPage | PrevPage | NextPage | LastPage.

Definition nav_step (totalPages : Z) (a : PageAction) (currentPage : Z) : Z :=
  match a with
  | FirstPage => 1
  | PrevPage => Z.max 1 (currentPage - 1)
  | NextPage => Z.min totalPages (currentPage + 1)
  | LastPage => totalPages
  end.

(** [disabled={currentPage === 1}] on First and Previous,
    [disabled={currentPage === totalPages}] on Next and Last. *)
Definition nav_enabled (totalPages : Z) (a : PageAction) (currentPage : Z) : bool :=
  match a with
  | FirstPage | PrevPage => negb (currentPage =? 1)
  | NextPage | LastPage => negb (currentPage =? totalPages)
  end.

(** A click: a disabled button does nothing. *)
Definition click (totalPages : Z) (currentPage : Z) (a : PageAction) : Z :=
  if nav_enabled totalPages a currentPage then nav_step totalPages a currentPage
  else currentPage.

Definition clicks (totalPages : Z) (acts : list PageAction) (currentPage : Z) : Z :=
  fold_left (click totalPages) acts currentPage.

(** RecentConversations and NotesPage:
    [Showing {indexOfFirst + 1} - {Math.min(indexOfLast, length)}]. *)
Definition showing_range (perPage len currentPage : Z) : Z * Z :=
  let indexOfLast := currentPage * perPage in
  let indexOfFirst := indexOfLast - perPage in
  (indexOfFirst + 1, Z.min indexOfLast len).

(** UserBackgroundInfo:
    [Showing {Math.min((currentPage - 1) * itemsPerPage + 1, length)} -
     {Math.min(currentPage * itemsPerPage, length)}]. *)
Definition showing_range_bg (perPage len currentPage : Z) : Z * Z :=
  (Z.min ((currentPage - 1) * perPage + 1) len, Z.min (currentPage * perPage) len).

(** * User background statistics (UserBackgroundInfo.tsx) *)

Module Background.

Local Open Scope string_scope.

Record StatInfo := mkStatInfo { count : Z; percentage : Q }.

(** A [{ [key: string]: StatInfo }] object, as the list that
    [Object.entries] enumerates. *)
Definition StatTable := list (string * StatInfo).

Record EducationStats := mkEducationStats {
  education_levels : StatTable;
  study_fields : StatTable;
  institutions : StatTable;
  total_users : Z
}.

Inductive Category := Education | Fields | Institutions.

(** [getCategoryData()] without the icon. *)
Definition getCategoryData (activeCategory : Category) (stats : EducationStats)
    : string * StatTable :=
  match activeCategory with
  | Education => ("Education Levels", education_levels stats)
  | Fields => ("Study Fields", study_fields stats)
  | Institutions => ("Institutions", institutions stats)
  end.

Definition itemsPerPage : nat := 25.

(** [Object.entries(data).sort(([, a], [, b]) => b.count - a.count)] *)
Definition sortedItems (data : StatTable) : StatTable :=
  sort_desc (fun e => count (snd e)) data.

(** [sortedItems.slice((currentPage - 1) * itemsPerPage, currentPage * itemsPerPage)] *)
Definition currentItems (data : StatTable) (currentPage : nat) : StatTable :=
  slice (sortedItems data) ((currentPage - 1) * itemsPerPage)%nat
    (currentPage * itemsPerPage)%nat.

End Background.

(** * Loading progress of [App] (src/unnamed/part_002) *)

(** [setLoadingProgress(prev => Math.min(prev + 20, 90))] *)
Definition updateProgress (prev : Z) : Z := Z.min (prev + 20) 90.

(** The progress after [setLoadingProgress(10)] and [k] calls of
    [updateProgress]. *)
Definition progress_after (k : nat) : Z := Nat.iter k updateProgress 10.

(** * Fetching the dashboard stats (src/unnamed/part_000, part_001) *)

Module Dashboard.

Local Open Scope string_scope.

(** [interface UserTimeline] *)
Record UserTimeline := mkUserTimeline { user_id : string; created_at : string }.

(** [StatsResponse]; the user lists the properties below do not read
    ([latest_users], [paid_subscription_users]) are left out.  An absent or
    [null] [all_users_timeline] is [None]. *)
Record StatsResponse := mkStatsResponse {
  total_users : Z;
  paid_subscription_count : Z;
  conversation_history : list Conversation;
  all_users_timeline : option (list UserTimeline)
}.

(** A thrown value: an [Error] with its [message], or anything else. *)
Inductive Thrown := ErrorValue (message : string) | OtherValue.

(** A value [await response.json()] can give, as far as [DashboardEntry]
    tells them apart: the falsy ones ([null], [false], [0] or [-0], the empty
    string),
    a stats object, or any other truthy value ([JOther]: [true], another
    number or string, an array, an object that is not a [StatsResponse]). *)
Inductive JsonValue :=
  | JNull | JFalse | JZero | JEmptyString
  | JStats (s : StatsResponse)
  | JOther.

(** [!value] is false *)
Definition json_truthy (v : JsonValue) : bool :=
  match v with JStats _ | JOther => true | _ => false end.

(** What [await response.json()] gives: a parsed value or a thrown parse
    error. *)
Inductive JsonBody := JsonParsed (v : JsonValue) | JsonFailure (e : Thrown).

(** What [await fetch(url, ...)] gives. *)
Inductive FetchOutcome :=
  | NetworkFailure (e : Thrown)
  | HttpResponse (ok : bool) (status : Z) (statusText : string) (body : JsonBody).

(** [`${n}`] for an integer [n] of at most 20 digits (HTTP status codes). *)
Fixpoint dec_aux (fuel : nat) (n : Z) (acc : string) : string :=
  match fuel with
  | O => acc
  | S fuel' =>
      let acc' := String (ascii_of_nat (48 + Z.to_nat (n mod 10))%nat) acc in
      if Z.ltb n 10 then acc' else dec_aux fuel' (n / 10) acc'
  end.

Definition number_to_string (n : Z) : string :=
  if Z.ltb n 0 then ("-" ++ dec_aux 20 (- n) EmptyString)%string else dec_aux 20 n EmptyString.

Inductive Result (A E : Type) := Ok (a : A) | Err (e : E).
Arguments Ok {A E} a.
Arguments Err {A E} e.

(** [getStats()] *)
Definition getStats (o : FetchOutcome) : Result JsonValue Thrown :=
  match o with
  | NetworkFailure e => Err e
  | HttpResponse ok status statusText body =>
      if negb ok then
        Err (ErrorValue ("Failed to fetch stats: " ++ number_to_string status ++ " "
                         ++ statusText)%string)
      else match body with JsonParsed v => Ok v | JsonFailure e => Err e end
  end.

(** [useState<StatsResponse | null>(null)] holds whatever [getStats]
    resolved to. *)
Record DashboardState := mkDashboardState {
  stats : JsonValue;
  loading : bool;
  error : option string
}.

Definition initialState : DashboardState := mkDashboardState JNull true None.

(** [fetchStats]: [setLoading(true)], then [setStats(data); setError(null)]
    or [setError(...)], and [setLoading(false)] in [finally]. *)
Definition fetchStats (o : FetchOutcome) (st : DashboardState) : DashboardState :=
  match getStats o with
  | Ok data => mkDashboardState data false None
  | Err e =>
      mkDashboardState (stats st) false
        (Some (match e with ErrorValue m => m | OtherValue => "Failed to fetch stats" end))
  end.

(** [UncheckedView]: the chart [useMemo], which runs before the early
    returns, and the dashboard body read the fields of a truthy stored value
    that is not a [StatsResponse]; they may throw, and the model does not
    follow them further.  It is never [return null]. *)
Inductive View := LoadingView | ErrorView (message : string) | BlankView
  | DashboardView (s : StatsResponse) | UncheckedView.

(** The early returns of [DashboardEntry]: [if (loading)], [if (error)]
    (an empty message is falsy), [if (!stats) return null]. *)
Definition render (st : DashboardState) : View :=
  match stats st with JOther => UncheckedView | _ =>
  if loading st then LoadingView else
  let rest := match stats st with JStats s => DashboardView s | _ => BlankView end in
  match error st with
  | Some m => if String.eqb m EmptyString then rest else ErrorView m
  | None => rest
  end
  end.

End Dashboard.

(** * The second [DashboardEntry] (src/unnamed/part_001, [processTimelineData]) *)

(** [userDate >= startTime && userDate <= now], false on [NaN]. *)
Definition user_in_range (parseDate : string -> option Z) (start now : Z)
    (u : Dashboard.UserTimeline) : bool :=
  match parseDate (Dashboard.created_at u) with
  | Some t => (start <=? t) && (t <=? now)
  | None => false
  end.

(** The body of [filteredUsers.forEach]. *)
Definition count_user (parseDate : string -> option Z) (intervalMs : Z) (m : BucketMap)
    (u : Dashboard.UserTimeline) : BucketMap :=
  match parseDate (Dashboard.created_at u) with
  | Some t =>
      let k := floor_key t intervalMs in
      match map_get k m with
      | Some _ => map_incr k m
      | None => m
      end
  | None => m
  end.

(** [{ userChartData, conversationChartData }].  The one initialisation
    loop fills [userBuckets] and [conversationBuckets] with the same keys
    and labels and a fresh [{ label, count: 0 }] object each, so each map is
    [init_buckets] on its own.  A user row's [users] is held in the
    [conversations] field of [Row]. *)
Definition processTimelineData (parseDate : string -> option Z) (timeLabel dateLabel : Z -> string)
    (stats : option Dashboard.StatsResponse) (r : TimeRange) (now : Z)
    : list (string * nat) * list (string * nat) :=
  match stats with
  | None => ([], [])
  | Some s =>
      let p := range_params timeLabel dateLabel r now in
      let filteredUsers :=
        filter (user_in_range parseDate (startTime p) now)
          (match Dashboard.all_users_timeline s with Some l => l | None => [] end) in
      let filteredConversations :=
        filter (in_range parseDate (startTime p) now) (Dashboard.conversation_history s) in
      let userBuckets :=
        fold_left (count_user parseDate (intervalMs p)) filteredUsers (init_buckets p now) in
      let conversationBuckets :=
        fold_left (count_conv parseDate (intervalMs p)) filteredConversations
          (init_buckets p now) in
      (map (fun row => (time row, conversations row))
         (sort_by (fun a b => timestamp a - timestamp b) (to_rows userBuckets)),
       map (fun row => (time row, conversations row))
         (sort_by (fun a b => timestamp a - timestamp b) (to_rows conversationBuckets)))
  end.

(** * Sample inputs *)

(** [new Date(s).getTime()] on the two ISO strings used below; any other
    string is an Invalid Date. *)
Definition sample_parse (s : string) : option Z :=
  if String.eqb s "2024-01-02T00:00:00Z" then Some 1704153600000
  else if String.eqb s "2024-01-02T12:00:00Z" then Some 1704196800000
  else None.

Definition sample_conv : Conversation := mkConversation "c1" "u1" "2024-01-02T00:00:00Z".

Definition sample_info : Conversations.ConversationInfo :=
  Conversations.mkConversationInfo "a.md" "c1" "t" "2024-01-02T00:00:00Z" None "u1".

Definition sample_note : Notes.NoteInfo :=
  Notes.mkNoteInfo "n.md" "2024-01-02T00:00:00Z" None "u1".

Definition sample_table : Background.StatTable :=
  [("Bachelor"%string, Background.mkStatInfo 3 (3 # 8)); ("Master"%string, Background.mkStatInfo 5 (5 # 8))].

(** ** Lemmas on the [Map] model *)

Lemma map_set_new (k : Z) (v : Bucket) (m : BucketMap) :
  ~ In k (keys m) -> map_set k v m = m ++ [(k, v)].
Proof.
  induction m as [| [k' v'] m IH]; simpl; intros Hn; [reflexivity |].
  destruct (Z.eqb_spec k k'); [subst; tauto |].
  rewrite IH; tauto.
Qed.

Lemma map_incr_keys (k : Z) (m : BucketMap) : keys (map_incr k m) = keys m.
Proof.
  induction m as [| [k' v'] m IH]; simpl; [reflexivity |].
  destruct (Z.eqb k k'); simpl; [reflexivity | now rewrite <- IH].
Qed.

Lemma map_get_in (k : Z) (m : BucketMap) :
  map_get k m <> None <-> In k (keys m).
Proof.
  induction m as [| [k' v'] m IH]; simpl; [tauto |].
  destruct (Z.eqb_spec k k'); subst; [split; [auto | discriminate] |].
  rewrite IH; intuition.
Qed.

Lemma map_incr_sum (k : Z) (m : BucketMap) :
  In k (keys m) -> sum_counts (map_incr k m) = S (sum_counts m).
Proof.
  unfold sum_counts.
  induction m as [| [k' v'] m IH]; simpl; [tauto |].
  destruct (Z.eqb_spec k k'); simpl; [reflexivity |].
  intros [-> | H]; [congruence |]. rewrite IH; auto.
Qed.

(** Counts stored under [k] never decrease, and [map_incr k] raises it. *)
Lemma map_incr_get_ge (k k' : Z) (m : BucketMap) (b : Bucket) :
  map_get k' m = Some b ->
  exists b', map_get k' (map_incr k m) = Some b' /\ label b' = label b /\
    (count b <= count b')%nat /\ (k = k' -> count b' = S (count b)).
Proof.
  induction m as [| [k0 v0] m IH]; simpl; [discriminate |].
  destruct (Z.eqb_spec k k0), (Z.eqb_spec k' k0); subst; simpl;
    rewrite ?Z.eqb_refl.
  - intros [= <-]. eexists; split; [reflexivity |]; simpl; repeat split; lia.
  - rewrite (proj2 (Z.eqb_neq _ _) n). intros H. exists b; repeat split; auto; intros; congruence.
  - intros [= <-]. exists v0; repeat split; auto; intros; congruence.
  - rewrite (proj2 (Z.eqb_neq _ _) n0). apply IH.
Qed.

(** ** Lemmas on the stable sort *)

Section SortFacts.
Context {A : Type} (f : A -> Z).

Local Abbreviation cmp := (fun a b : A => f a - f b).
Local Abbreviation le_f := (fun a b : A => f a <= f b).

Lemma insert_by_perm (x : A) (l : list A) : Permutation (insert_by cmp x l) (x :: l).
Proof.
  induction l as [| y l IH]; simpl; [reflexivity |].
  destruct (cmp x y <=? 0); [reflexivity |].
  rewrite IH. apply perm_swap.
Qed.

Lemma sort_by_perm (l : list A) : Permutation (sort_by cmp l) l.
Proof.
  induction l as [| x l IH]; simpl; [reflexivity |].
  rewrite insert_by_perm. now apply perm_skip.
Qed.

Lemma insert_by_sorted (x : A) (l : list A) :
  Sorted le_f l -> Sorted le_f (insert_by cmp x l).
Proof.
  induction 1 as [| y l Hs IH Hh]; simpl; [repeat constructor |].
  cbv beta. destruct (Z.leb_spec (f x - f y) 0).
  - constructor; [constructor; auto | constructor; cbv beta; lia].
  - constructor; [exact IH |].
    destruct l as [| z l]; simpl; [constructor; cbv beta; lia |].
    inversion Hh; subst. cbv beta.
    destruct (Z.leb_spec (f x - f z) 0); constructor; cbv beta in *; lia.
Qed.

Lemma sort_by_sorted (l : list A) : Sorted le_f (sort_by cmp l).
Proof.
  induction l as [| x l IH]; simpl; [constructor | now apply insert_by_sorted].
Qed.

(** Sorting an already ordered array leaves it unchanged. *)
Lemma sort_by_id (l : list A) : Sorted le_f l -> sort_by cmp l = l.
Proof.
  induction 1 as [| x l Hs IH Hh]; simpl; [reflexivity |].
  rewrite IH. destruct l as [| y l]; simpl; [reflexivity |].
  inversion Hh; subst. cbv beta in *.
  cbv beta. destruct (Z.leb_spec (f x - f y) 0); [reflexivity | lia].
Qed.

End SortFacts.

(** ** The initialisation loop *)

Section InitLoop.
Variables (I now : Z) (fmt : Z -> string).
Hypothesis I_pos : 0 < I.

Lemma floor_key_step (c : Z) : floor_key (c + I) I = floor_key c I + I.
Proof.
  unfold floor_key. replace (c + I) with (c + 1 * I) by ring.
  rewrite Z.div_add by lia. ring.
Qed.

Lemma floor_key_step_n (c : Z) (i : nat) :
  floor_key (c + Z.of_nat i * I) I = floor_key c I + Z.of_nat i * I.
Proof.
  unfold floor_key. rewrite Z.div_add by lia. ring.
Qed.

Lemma iters_step (cur : Z) : cur <= now -> iters I now cur = S (iters I now (cur + I)).
Proof.
  intros Hle. unfold iters.
  destruct (Z.ltb_spec now cur); [lia |].
  destruct (Z.ltb_spec now (cur + I)).
  - rewrite Z.div_small by lia. reflexivity.
  - f_equal. replace (now - cur) with (now - (cur + I) + 1 * I) by ring.
    rewrite Z.div_add by lia.
    rewrite Z2Nat.inj_add; [| apply Z.div_pos; lia | lia]. simpl. lia.
Qed.

Lemma gen_keys_ge (n : nat) (cur k : Z) :
  In k (keys (gen I fmt n cur)) -> floor_key cur I <= k.
Proof.
  revert cur. induction n as [| n IH]; simpl; intros cur; [tauto |].
  intros [<- | H]; [lia |]. apply IH in H. rewrite floor_key_step in H. lia.
Qed.

Lemma init_loop_gen (fuel : nat) (cur : Z) (m : BucketMap) :
  Forall (fun k => k < floor_key cur I) (keys m) ->
  (iters I now cur <= fuel)%nat ->
  init_loop fuel I now fmt cur m = m ++ gen I fmt (iters I now cur) cur.
Proof.
  revert cur m. induction fuel as [| fuel IH]; intros cur m Hk Hf; simpl.
  - assert (iters I now cur = O) as -> by lia. now rewrite app_nil_r.
  - destruct (Z.leb_spec cur now) as [Hle | Hlt].
    + rewrite map_set_new.
      2: { intros Hin. rewrite Forall_forall in Hk. apply Hk in Hin. lia. }
      rewrite (iters_step cur Hle) in Hf |- *.
      rewrite IH; [now rewrite <- app_assoc | | lia].
      unfold keys. rewrite map_app. apply Forall_app. split.
      * eapply Forall_impl; [| exact Hk]. simpl. intros k Hk'.
        rewrite floor_key_step. lia.
      * constructor; [simpl; rewrite floor_key_step; lia | constructor].
    + unfold iters. destruct (Z.ltb_spec now cur); [| lia].
      now rewrite app_nil_r.
Qed.

(** More fuel than [loop_fuel] changes nothing: the loop guard, not the
    fuel, ends the loop. *)
Lemma init_loop_enough (fuel : nat) (cur : Z) :
  (loop_fuel I now cur <= fuel)%nat ->
  init_loop fuel I now fmt cur [] = init_loop (loop_fuel I now cur) I now fmt cur [].
Proof.
  intros Hf. assert (iters I now cur <= loop_fuel I now cur)%nat.
  { unfold iters, loop_fuel. destruct (now <? cur); lia. }
  rewrite !init_loop_gen; [reflexivity | constructor | lia | constructor | lia].
Qed.

Lemma gen_length (n : nat) (cur : Z) : length (gen I fmt n cur) = n.
Proof. revert cur; induction n; simpl; auto. Qed.

Lemma gen_sum (n : nat) (cur : Z) : sum_counts (gen I fmt n cur) = O.
Proof.
  revert cur; induction n as [| n IH]; intros cur; [reflexivity |].
  unfold sum_counts in *. simpl. apply IH.
Qed.

Lemma gen_in (n : nat) (cur k : Z) (b : Bucket) :
  In (k, b) (gen I fmt n cur) <->
  exists i : nat, (i < n)%nat /\ k = floor_key (cur + Z.of_nat i * I) I /\
    b = mkBucket (fmt (cur + Z.of_nat i * I)) 0.
Proof.
  revert cur. induction n as [| n IH]; intros cur; simpl.
  - split; [tauto | intros (i & Hi & _); lia].
  - rewrite IH. split.
    + intros [[= <- <-] | (i & Hi & -> & ->)].
      * exists O. rewrite Z.add_0_r. repeat split; lia.
      * exists (S i). rewrite Nat2Z.inj_succ.
        replace (cur + I + Z.of_nat i * I) with (cur + Z.succ (Z.of_nat i) * I) by ring.
        repeat split; lia.
    + intros ([| i] & Hi & -> & ->).
      * left. now rewrite Z.add_0_r.
      * right. exists i. rewrite Nat2Z.inj_succ.
        replace (cur + Z.succ (Z.of_nat i) * I) with (cur + I + Z.of_nat i * I) by ring.
        repeat split; lia.
Qed.

Lemma gen_keys_in (n : nat) (cur k : Z) :
  In k (keys (gen I fmt n cur)) <->
  exists i : nat, (i < n)%nat /\ k = floor_key cur I + Z.of_nat i * I.
Proof.
  unfold keys. rewrite in_map_iff. split.
  - intros ([k' b] & <- & Hin). apply gen_in in Hin as (i & Hi & -> & _).
    exists i. split; [exact Hi | apply floor_key_step_n].
  - intros (i & Hi & ->). exists (floor_key cur I + Z.of_nat i * I,
      mkBucket (fmt (cur + Z.of_nat i * I)) 0).
    split; [reflexivity |]. apply gen_in. exists i.
    split; [exact Hi |]. now rewrite floor_key_step_n.
Qed.

Lemma gen_keys_sorted (n : nat) (cur : Z) : Sorted Z.lt (keys (gen I fmt n cur)).
Proof.
  revert cur. induction n as [| n IH]; intros cur; simpl; [constructor |].
  constructor; [apply IH |].
  destruct n; simpl; constructor. rewrite floor_key_step. lia.
Qed.

End InitLoop.

(** ** The four time ranges *)

Lemma range_interval_pos (tl dl : Z -> string) (r : TimeRange) (now : Z) :
  0 < intervalMs (range_params tl dl r now).
Proof. destruct r; simpl; lia. Qed.

Lemma range_lookback (tl dl : Z -> string) (r : TimeRange) (now : Z) :
  now - startTime (range_params tl dl r now) =
  Z.of_nat (steps r) * intervalMs (range_params tl dl r now).
Proof. destruct r; simpl; lia. Qed.

Lemma range_iters (tl dl : Z -> string) (r : TimeRange) (now : Z) :
  iters (intervalMs (range_params tl dl r now)) now (startTime (range_params tl dl r now))
  = S (steps r).
Proof.
  pose proof (range_interval_pos tl dl r now) as HI.
  pose proof (range_lookback tl dl r now) as HL.
  set (p := range_params tl dl r now) in *. unfold iters.
  destruct (Z.ltb_spec now (startTime p)); [nia |].
  rewrite HL, Z.div_mul by lia. now rewrite Nat2Z.id.
Qed.

Lemma init_buckets_range (tl dl : Z -> string) (r : TimeRange) (now : Z) :
  init_buckets (range_params tl dl r now) now =
  gen (intervalMs (range_params tl dl r now)) (formatLabel (range_params tl dl r now))
    (S (steps r)) (startTime (range_params tl dl r now)).
Proof.
  pose proof (range_interval_pos tl dl r now) as HI.
  pose proof (range_iters tl dl r now) as Hi.
  set (p := range_params tl dl r now) in *.
  unfold init_buckets. rewrite init_loop_gen by (auto; unfold iters, loop_fuel;
    destruct (now <? startTime p); lia).
  now rewrite Hi.
Qed.

(** Every instant of [[startTime, now]] falls in a pre-built bucket. *)
Lemma range_coverage (tl dl : Z -> string) (r : TimeRange) (now t : Z) :
  startTime (range_params tl dl r now) <= t <= now ->
  In (floor_key t (intervalMs (range_params tl dl r now)))
    (keys (init_buckets (range_params tl dl r now) now)).
Proof.
  intros Ht. rewrite init_buckets_range.
  pose proof (range_interval_pos tl dl r now) as HI.
  pose proof (range_lookback tl dl r now) as HL.
  set (p := range_params tl dl r now) in *.
  set (I := intervalMs p) in *. set (s := startTime p) in *.
  apply gen_keys_in; [exact HI |].
  assert (Hlo : s / I <= t / I) by (apply Z.div_le_mono; lia).
  assert (Hhi : t / I <= s / I + Z.of_nat (steps r)).
  { transitivity (now / I); [apply Z.div_le_mono; lia |].
    replace now with (s + Z.of_nat (steps r) * I) by lia.
    rewrite Z.div_add by lia. lia. }
  exists (Z.to_nat (t / I - s / I)). split; [lia |].
  unfold floor_key. rewrite Z2Nat.id by lia. ring.
Qed.

(** ** The counting loop *)

Section Counting.
Variable parseDate : string -> option Z.
Variable I : Z.

Lemma count_conv_keys (m : BucketMap) (c : Conversation) :
  keys (count_conv parseDate I m c) = keys m.
Proof.
  unfold count_conv. destruct (parseDate (created_at c)); [| reflexivity].
  destruct (map_get _ m); [apply map_incr_keys | reflexivity].
Qed.

Lemma fold_count_keys (l : list Conversation) (m : BucketMap) :
  keys (fold_left (count_conv parseDate I) l m) = keys m.
Proof.
  revert m. induction l as [| c l IH]; intros m; simpl; [reflexivity |].
  now rewrite IH, count_conv_keys.
Qed.

Lemma fold_count_sum (l : list Conversation) (m : BucketMap) :
  (forall c, In c l -> exists t, parseDate (created_at c) = Some t /\
     In (floor_key t I) (keys m)) ->
  sum_counts (fold_left (count_conv parseDate I) l m) = (sum_counts m + length l)%nat.
Proof.
  revert m. induction l as [| c l IH]; intros m Hcov; simpl; [lia |].
  destruct (Hcov c (or_introl eq_refl)) as (t & Ht & Hk).
  rewrite IH.
  - unfold count_conv. rewrite Ht.
    destruct (map_get (floor_key t I) m) eqn:Hg.
    + rewrite map_incr_sum; [lia | exact Hk].
    + apply map_get_in in Hk. contradiction.
  - intros c' Hc'. destruct (Hcov c' (or_intror Hc')) as (t' & Ht' & Hk').
    exists t'. now rewrite count_conv_keys.
Qed.

(** Once a bucket exists, counting never lowers its count nor changes
    its label. *)
Lemma fold_count_get_ge (l : list Conversation) (m : BucketMap) (k : Z) (b : Bucket) :
  map_get k m = Some b ->
  exists b', map_get k (fold_left (count_conv parseDate I) l m) = Some b' /\
    label b' = label b /\ (count b <= count b')%nat.
Proof.
  revert m b. induction l as [| c l IH]; intros m b Hg; simpl.
  - exists b. auto.
  - unfold count_conv at 2. destruct (parseDate (created_at c)) as [t |]; [| now apply IH].
    destruct (map_get (floor_key t I) m); [| now apply IH].
    destruct (map_incr_get_ge (floor_key t I) k m b Hg) as (b1 & Hb1 & Hl1 & Hc1 & _).
    destruct (IH _ _ Hb1) as (b2 & Hb2 & Hl2 & Hc2).
    exists b2. repeat split; [exact Hb2 | congruence | lia].
Qed.

(** A counted conversation leaves at least one in its bucket. *)
Lemma fold_count_hit (l : list Conversation) (m : BucketMap) (c : Conversation) (t : Z) :
  In c l -> parseDate (created_at c) = Some t ->
  In (floor_key t I) (keys m) ->
  exists b, map_get (floor_key t I) (fold_left (count_conv parseDate I) l m) = Some b /\
    (1 <= count b)%nat.
Proof.
  intros Hin Ht Hk. apply in_split in Hin as (l1 & l2 & ->).
  rewrite fold_left_app. simpl.
  set (m1 := fold_left (count_conv parseDate I) l1 m).
  assert (Hk1 : In (floor_key t I) (keys m1)) by (unfold m1; now rewrite fold_count_keys).
  apply map_get_in in Hk1. destruct (map_get (floor_key t I) m1) as [b1 |] eqn:Hg1;
    [| congruence].
  unfold count_conv at 2. rewrite Ht, Hg1.
  destruct (map_incr_get_ge (floor_key t I) (floor_key t I) m1 b1 Hg1)
    as (b2 & Hb2 & _ & _ & Hc2).
  destruct (fold_count_get_ge l2 _ _ _ Hb2) as (b3 & Hb3 & _ & Hc3).
  exists b3. split; [exact Hb3 | specialize (Hc2 eq_refl); lia].
Qed.

End Counting.

(** ** Labels survive the counting loop *)

Lemma map_incr_labels (k : Z) (m : BucketMap) : labels (map_incr k m) = labels m.
Proof.
  unfold labels. induction m as [| [k' v'] m IH]; simpl; [reflexivity |].
  destruct (Z.eqb k k'); simpl; [reflexivity | now rewrite IH].
Qed.

Lemma fold_count_labels (pd : string -> option Z) (I : Z) (l : list Conversation)
    (m : BucketMap) :
  labels (fold_left (count_conv pd I) l m) = labels m.
Proof.
  revert m. induction l as [| c l IH]; intros m; simpl; [reflexivity |].
  rewrite IH. unfold count_conv. destruct (pd (created_at c)); [| reflexivity].
  destruct (map_get _ m); [apply map_incr_labels | reflexivity].
Qed.

(** ** The emitted rows *)

Lemma to_rows_timestamps (m : BucketMap) : map timestamp (to_rows m) = keys m.
Proof. induction m as [| [k b] m IH]; simpl; congruence. Qed.

Lemma to_rows_sum (m : BucketMap) :
  list_sum (map conversations (to_rows m)) = sum_counts m.
Proof. unfold sum_counts. induction m as [| [k b] m IH]; simpl; congruence. Qed.

Lemma to_rows_get (m : BucketMap) (k : Z) (b : Bucket) :
  map_get k m = Some b -> In (mkRow (label b) (count b) k) (to_rows m).
Proof.
  induction m as [| [k' b'] m IH]; simpl; [discriminate |].
  destruct (Z.eqb_spec k k'); [intros [= <-]; left; congruence | auto].
Qed.

Lemma keys_length (m : BucketMap) : length (keys m) = length m.
Proof. apply length_map. Qed.

Lemma sorted_map_ts (l : list Row) :
  Sorted Z.lt (map timestamp l) -> Sorted (fun a b => timestamp a <= timestamp b) l.
Proof.
  induction l as [| x l IH]; simpl; intros H; [constructor |].
  inversion H as [| ? ? Hs Hh]; subst. constructor; [auto |].
  destruct l as [| y l]; constructor. simpl in Hh. inversion Hh; lia.
Qed.

Lemma final_buckets_keys pd tl dl history r now :
  keys (final_buckets pd tl dl history r now) =
  keys (gen (intervalMs (range_params tl dl r now)) (formatLabel (range_params tl dl r now))
    (S (steps r)) (startTime (range_params tl dl r now))).
Proof. unfold final_buckets. now rewrite fold_count_keys, init_buckets_range. Qed.

(** The [.sort] finds the entries already in ascending key order. *)
Lemma chartRows_final pd tl dl history r now :
  chartRows pd tl dl (Some history) r now = to_rows (final_buckets pd tl dl history r now).
Proof.
  unfold chartRows. fold (final_buckets pd tl dl history r now).
  apply (sort_by_id timestamp). apply sorted_map_ts.
  rewrite to_rows_timestamps, final_buckets_keys.
  apply gen_keys_sorted, range_interval_pos.
Qed.

Lemma chartRows_timestamps pd tl dl history r now :
  map timestamp (chartRows pd tl dl (Some history) r now) =
  keys (gen (intervalMs (range_params tl dl r now)) (formatLabel (range_params tl dl r now))
    (S (steps r)) (startTime (range_params tl dl r now))).
Proof. now rewrite chartRows_final, to_rows_timestamps, final_buckets_keys. Qed.

Lemma filter_length_eq {A : Type} (f : A -> bool) (l : list A) :
  length (filter f l) = length l <-> Forall (fun x => f x = true) l.
Proof.
  induction l as [| x l IH]; simpl; [split; auto |].
  pose proof (filter_length_le f l).
  destruct (f x) eqn:Hx; simpl.
  - rewrite Forall_cons_iff, <- IH. intuition.
  - split; [lia | intros H'; inversion H'; congruence].
Qed.

(** * Claims about [DashboardEntry.chartData] *)

(** C1: for every conversation history and every range, the chart has
    [ceil((now - startTime) / intervalMs) + 1] points, i.e. 13, 13, 8 and 31
    for '12h', '1d', '7d' and '30d'; the number depends on nothing but the
    range. *)
Theorem chartData_length (pd : string -> option Z) (tl dl : Z -> string)
    (history : list Conversation) (r : TimeRange) (now : Z) :
  let p := range_params tl dl r now in
  Z.of_nat (length (chartData pd tl dl (Some history) r now)) =
    (now - startTime p + intervalMs p - 1) / intervalMs p + 1 /\
  length (chartData pd tl dl (Some history) r now) =
    match r with R12h => 13 | R1d => 13 | R7d => 8 | R30d => 31 end%nat.
Proof.
  cbv zeta.
  assert (Hlen : length (chartData pd tl dl (Some history) r now) = S (steps r)).
  { unfold chartData. rewrite length_map, <- (length_map timestamp),
      chartRows_timestamps, keys_length. apply gen_length. }
  rewrite Hlen. split; [| destruct r; reflexivity].
  pose proof (range_interval_pos tl dl r now) as HI.
  rewrite range_lookback.
  set (I := intervalMs (range_params tl dl r now)) in *.
  replace (Z.of_nat (steps r) * I + I - 1) with (Z.of_nat (steps r) * I + (I - 1)) by ring.
  rewrite Z.div_add_l, (Z.div_small (I - 1)) by lia. lia.
Qed.

(** C2: every conversation of [[startTime, now]] is counted in exactly one
    bucket: the counts add up to the number of such conversations, hence to
    at most [history.length], with equality exactly when every conversation
    lies in [[now - lookback, now]]; and when the [forEach] reaches an
    in-range conversation, [buckets.get] finds its bucket, so the
    [if (bucket)] guard never drops it. *)
Theorem chartData_sum (pd : string -> option Z) (tl dl : Z -> string)
    (history : list Conversation) (r : TimeRange) (now : Z) :
  let p := range_params tl dl r now in
  let total := list_sum (map snd (chartData pd tl dl (Some history) r now)) in
  total = length (filter (in_range pd (startTime p) now) history) /\
  (total <= length history)%nat /\
  (total = length history <->
     Forall (fun c => exists t, pd (created_at c) = Some t /\ startTime p <= t <= now)
       history) /\
  (forall pre c post, history = pre ++ c :: post ->
     in_range pd (startTime p) now c = true ->
     exists t b, pd (created_at c) = Some t /\
       map_get (floor_key t (intervalMs p))
         (fold_left (count_conv pd (intervalMs p))
            (filter (in_range pd (startTime p) now) pre) (init_buckets p now)) = Some b).
Proof.
  cbv zeta.
  set (p := range_params tl dl r now).
  assert (Hcov : forall c, in_range pd (startTime p) now c = true ->
    exists t, pd (created_at c) = Some t /\
      In (floor_key t (intervalMs p)) (keys (init_buckets p now))).
  { intros c Hc. unfold in_range in Hc. destruct (pd (created_at c)) as [t |]; [| discriminate].
    apply andb_true_iff in Hc as [H1 H2]. apply Z.leb_le in H1, H2.
    exists t. split; [reflexivity |]. now apply range_coverage. }
  assert (Htot : list_sum (map snd (chartData pd tl dl (Some history) r now)) =
                 length (filter (in_range pd (startTime p) now) history)).
  { unfold chartData. rewrite chartRows_final, map_map.
    rewrite (map_ext _ conversations) by reflexivity. rewrite to_rows_sum.
    unfold final_buckets. fold p. rewrite fold_count_sum.
    - unfold p. rewrite init_buckets_range, gen_sum. reflexivity.
    - intros c Hc. apply filter_In in Hc as [_ Hc]. now apply Hcov. }
  rewrite Htot. split; [reflexivity |]. split; [apply filter_length_le |]. split.
  - rewrite filter_length_eq. split; intros H; eapply Forall_impl; try exact H;
      intros c; unfold in_range; simpl.
    + destruct (pd (created_at c)) as [t |]; [| discriminate].
      intros Hc. apply andb_true_iff in Hc as [H1 H2]. apply Z.leb_le in H1, H2.
      exists t. auto.
    + intros (t & -> & H1 & H2). apply andb_true_iff. split; now apply Z.leb_le.
  - intros pre c post -> Hc. destruct (Hcov c Hc) as (t & Ht & Hk).
    rewrite <- (fold_count_keys pd (intervalMs p)
      (filter (in_range pd (startTime p) now) pre)) in Hk.
    apply map_get_in in Hk. exists t.
    destruct (map_get _ _) as [b |]; [| congruence]. now exists b.
Qed.

(** C4: the range filter is closed at both ends: a conversation dated
    exactly [startTime] or exactly [now] passes the filter and is counted in
    a bucket; one dated [startTime] is counted in the first bucket. *)
Theorem boundary_counted (pd : string -> option Z) (tl dl : Z -> string)
    (history : list Conversation) (r : TimeRange) (now : Z) (c : Conversation) (t : Z) :
  In c history -> pd (created_at c) = Some t ->
  t = startTime (range_params tl dl r now) \/ t = now ->
  in_range pd (startTime (range_params tl dl r now)) now c = true /\
  exists row, In row (chartRows pd tl dl (Some history) r now) /\
    timestamp row = floor_key t (intervalMs (range_params tl dl r now)) /\
    (1 <= conversations row)%nat /\
    (t = startTime (range_params tl dl r now) ->
       hd_error (chartRows pd tl dl (Some history) r now) = Some row).
Proof.
  intros Hin Ht Hb.
  pose proof (range_lookback tl dl r now) as HL.
  pose proof (range_interval_pos tl dl r now) as HI.
  assert (Hst : startTime (range_params tl dl r now) <= t <= now) by (destruct Hb; nia).
  assert (Hr : in_range pd (startTime (range_params tl dl r now)) now c = true).
  { unfold in_range. rewrite Ht. apply andb_true_iff. split; apply Z.leb_le; lia. }
  split; [exact Hr |].
  destruct (fold_count_hit pd (intervalMs (range_params tl dl r now))
    (filter (in_range pd (startTime (range_params tl dl r now)) now) history)
    (init_buckets (range_params tl dl r now) now) c t)
    as (b & Hg & Hc).
  { now apply filter_In. }
  { exact Ht. }
  { now apply range_coverage. }
  fold (final_buckets pd tl dl history r now) in Hg.
  exists (mkRow (label b) (count b) (floor_key t (intervalMs (range_params tl dl r now)))).
  rewrite chartRows_final. repeat split; [now apply to_rows_get | exact Hc |].
  intros Hts. pose proof (final_buckets_keys pd tl dl history r now) as Hk.
  destruct (final_buckets pd tl dl history r now) as [| [k0 b0] m] eqn:Hf;
    [discriminate |].
  simpl in Hk. injection Hk as Hk0 _. rewrite <- Hts in Hk0.
  simpl in Hg. rewrite Hk0, Z.eqb_refl in Hg. injection Hg as <-.
  simpl. now rewrite Hk0.
Qed.

(** C5: bucket keys are multiples of the interval counted from the epoch,
    not from [startTime]: a key of one run that lies in the window of
    another run of the same range (any [now], any history) is a key of that
    run too. *)
Theorem keys_epoch_aligned (pd : string -> option Z) (tl dl : Z -> string)
    (h1 h2 : list Conversation) (r : TimeRange) (now1 now2 K : Z) :
  In K (map timestamp (chartRows pd tl dl (Some h1) r now1)) ->
  startTime (range_params tl dl r now2) <= K <= now2 ->
  In K (map timestamp (chartRows pd tl dl (Some h2) r now2)).
Proof.
  rewrite !chartRows_timestamps. intros H1 H2.
  pose proof (range_interval_pos tl dl r now1) as HI.
  assert (Heq : intervalMs (range_params tl dl r now2) = intervalMs (range_params tl dl r now1))
    by (destruct r; reflexivity).
  apply gen_keys_in in H1 as (i & _ & HK); [| exact HI].
  set (I := intervalMs (range_params tl dl r now1)) in *.
  assert (HfK : floor_key K I = K).
  { unfold floor_key in *. rewrite HK, Z.div_add by lia. rewrite Z.div_mul by lia. ring. }
  rewrite <- init_buckets_range, <- HfK, <- Heq. now apply range_coverage.
Qed.

(** C6: the rows come out strictly ascending by bucket key: no two share a
    key and no two are out of order. *)
Theorem chartRows_ascending (pd : string -> option Z) (tl dl : Z -> string)
    (stats : option (list Conversation)) (r : TimeRange) (now : Z) :
  StronglySorted Z.lt (map timestamp (chartRows pd tl dl stats r now)).
Proof.
  destruct stats as [history |]; [| constructor].
  rewrite chartRows_timestamps. apply Sorted_StronglySorted; [exact Z.lt_trans |].
  apply gen_keys_sorted, range_interval_pos.
Qed.

(** C7: a conversation whose [created_at] gives an Invalid Date fails both
    [NaN] comparisons of the filter and is dropped: the chart is the one
    computed without it. *)
Theorem invalid_date_dropped (pd : string -> option Z) (tl dl : Z -> string)
    (pre post : list Conversation) (c : Conversation) (r : TimeRange) (now : Z) :
  pd (created_at c) = None ->
  in_range pd (startTime (range_params tl dl r now)) now c = false /\
  chartData pd tl dl (Some (pre ++ c :: post)) r now =
  chartData pd tl dl (Some (pre ++ post)) r now.
Proof.
  intros Hc.
  assert (Hr : in_range pd (startTime (range_params tl dl r now)) now c = false)
    by (unfold in_range; now rewrite Hc).
  split; [exact Hr |].
  unfold chartData, chartRows. rewrite !filter_app. simpl. now rewrite Hr.
Qed.

Section Parsed.
Variable pd : string -> option Z.

Local Abbreviation parsed := (fun c : Conversation => pd (created_at c)).

Lemma filter_parsed (f : Conversation -> bool) (l1 l2 : list Conversation) :
  (forall c1 c2, parsed c1 = parsed c2 -> f c1 = f c2) ->
  map parsed l1 = map parsed l2 -> map parsed (filter f l1) = map parsed (filter f l2).
Proof.
  intros Hf. revert l2. induction l1 as [| c1 l1 IH]; intros [| c2 l2]; simpl;
    try discriminate; [reflexivity |].
  intros [= Hc Hl]. rewrite (Hf c1 c2 Hc).
  destruct (f c2); simpl; rewrite (IH l2 Hl); congruence.
Qed.

Lemma fold_parsed (I : Z) (l1 l2 : list Conversation) (m : BucketMap) :
  map parsed l1 = map parsed l2 ->
  fold_left (count_conv pd I) l1 m = fold_left (count_conv pd I) l2 m.
Proof.
  revert l2 m. induction l1 as [| c1 l1 IH]; intros [| c2 l2] m; simpl;
    try discriminate; [reflexivity |].
  intros [= Hc Hl]. rewrite (IH l2 _ Hl). f_equal.
  unfold count_conv. cbv beta in Hc. now rewrite Hc.
Qed.

End Parsed.

(** C8: the chart is a function of its inputs: it depends on the history
    only through the parsed [created_at] instants, so two runs on the same
    history, range and [now] give the same chart. *)
Theorem chartData_functional (pd : string -> option Z) (tl dl : Z -> string)
    (h1 h2 : list Conversation) (r : TimeRange) (now : Z) :
  map (fun c => pd (created_at c)) h1 = map (fun c => pd (created_at c)) h2 ->
  chartData pd tl dl (Some h1) r now = chartData pd tl dl (Some h2) r now.
Proof.
  intros H. unfold chartData, chartRows. f_equal. f_equal. f_equal.
  apply fold_parsed, filter_parsed; [| exact H].
  intros c1 c2 Hc. unfold in_range. now rewrite Hc.
Qed.

(** C3 (counterexample): with [now] = 2024-01-02T12:30:00Z and range '12h',
    the first bucket has key 2024-01-02T00:00:00Z but its label is the
    formatter applied to [currentTime] = 00:30, not to the key. *)
Lemma bucket_label_not_key_instant :
  ~ (forall row, In row (chartRows (fun _ => None) hhmm_utc hhmm_utc (Some []) R12h
                           1704198600000) ->
       time row = hhmm_utc (timestamp row)).
Proof.
  intros H.
  assert (Hin : In (mkRow "00:30" 0 1704153600000)
                  (chartRows (fun _ => None) hhmm_utc hhmm_utc (Some []) R12h 1704198600000))
    by (vm_compute; left; reflexivity).
  apply H in Hin. vm_compute in Hin. discriminate.
Qed.

(** C3 (amended): each bucket's label is the formatter applied to the loop
    instant [startTime + i * intervalMs] that created it; that instant lies
    in the bucket's interval [[key, key + intervalMs)] and equals the key
    exactly when [now] is a multiple of [intervalMs]. *)
Theorem bucket_label_instant (pd : string -> option Z) (tl dl : Z -> string)
    (history : list Conversation) (r : TimeRange) (now : Z) (row : Row) :
  In row (chartRows pd tl dl (Some history) r now) ->
  exists i : nat, (i <= steps r)%nat /\
    let p := range_params tl dl r now in
    let inst := startTime p + Z.of_nat i * intervalMs p in
    time row = formatLabel p inst /\
    timestamp row = floor_key inst (intervalMs p) /\
    timestamp row <= inst < timestamp row + intervalMs p /\
    (inst = timestamp row <-> now mod intervalMs p = 0).
Proof.
  rewrite chartRows_final. intros Hrow.
  unfold to_rows in Hrow. apply in_map_iff in Hrow as ([k b] & <- & Hkb).
  assert (Hl : In (k, label b) (labels (final_buckets pd tl dl history r now))).
  { unfold labels. apply in_map_iff. now exists (k, b). }
  unfold final_buckets in Hl. rewrite fold_count_labels, init_buckets_range in Hl.
  unfold labels in Hl. apply in_map_iff in Hl as ([k0 b0] & [= <- Hlab] & Hin).
  pose proof (range_interval_pos tl dl r now) as HI.
  pose proof (range_lookback tl dl r now) as HL.
  apply gen_in in Hin as (i & Hi & Hk & Hb).
  exists i. split; [lia |]. cbv zeta. simpl.
  set (p := range_params tl dl r now) in *.
  set (I := intervalMs p) in *.
  set (inst := startTime p + Z.of_nat i * I) in *.
  rewrite Hb in Hlab. simpl in Hlab.
  pose proof (Z.mod_pos_bound inst I HI) as Hm.
  assert (Hfk : floor_key inst I = inst - inst mod I).
  { unfold floor_key. rewrite (Z.mod_eq inst I) by lia. ring. }
  assert (Hmod : inst mod I = now mod I).
  { unfold inst. replace (startTime p + Z.of_nat i * I)
      with (now + (Z.of_nat i - Z.of_nat (steps r)) * I) by lia.
    apply Z.mod_add. lia. }
  repeat split; [now rewrite <- Hlab | exact Hk | lia | lia | lia | lia].
Qed.


(** * Claims about [calculateAverageRating] *)

Section Ratings.
Import Conversations.
Local Open Scope Q_scope.

Lemma or_zero_value (r : option Q) :
  or_zero r == match r with Some q => q | None => 0 end.
Proof.
  destruct r as [q |]; simpl; [| reflexivity].
  destruct (Qeq_bool q 0) eqn:H; simpl; [| reflexivity].
  apply Qeq_bool_eq in H. now rewrite H.
Qed.

Lemma fold_total (l : list ConversationInfo) (a : Q) :
  fold_left (fun sum conv => sum + or_zero (quality_rating conv)) l a == a + rating_sum l.
Proof.
  revert a. induction l as [| c l IH]; intros a; simpl; [ring |].
  rewrite IH, or_zero_value. ring.
Qed.

(** C9: the average is 0 when no rating is truthy; otherwise the sum of all
    ratings (a missing one counting 0) divided by the number of truthy
    ratings, a positive number: ratings equal to 0 are left out of the
    count, and no division by zero happens. *)
Theorem calculateAverageRating_spec (conversations : list ConversationInfo) :
  (ratingsCount conversations = O -> calculateAverageRating conversations = 0) /\
  (ratingsCount conversations <> O ->
     0 < inject_Z (Z.of_nat (ratingsCount conversations)) /\
     calculateAverageRating conversations ==
       rating_sum conversations / inject_Z (Z.of_nat (ratingsCount conversations))) /\
  (forall c q, quality_rating c = Some q -> q == 0 ->
     ratingsCount (c :: conversations) = ratingsCount conversations).
Proof.
  unfold calculateAverageRating. split; [| split].
  - intros H. now rewrite H.
  - intros H. apply Nat.eqb_neq in H as H'. rewrite H'. split.
    + unfold Qlt. simpl. lia.
    + rewrite fold_total. now rewrite Qplus_0_l.
  - intros c q Hc Hq. unfold ratingsCount. simpl. rewrite Hc. simpl.
    apply Qeq_bool_iff in Hq. now rewrite Hq.
Qed.

End Ratings.

(** ** Lemmas on pagination *)

Lemma sort_by_ext {B : Type} (c1 c2 : B -> B -> Z) (l : list B) :
  (forall a b, c1 a b = c2 a b) -> sort_by c1 l = sort_by c2 l.
Proof.
  intros Hc. induction l as [| x l IH]; simpl; [reflexivity |]. rewrite IH.
  clear IH. induction (sort_by c2 l) as [| y l' IH']; simpl; [reflexivity |].
  rewrite Hc. destruct (c2 x y <=? 0); [reflexivity | now rewrite IH'].
Qed.

Lemma Sorted_weaken {B : Type} (R R' : B -> B -> Prop) (l : list B) :
  (forall a b, R a b -> R' a b) -> Sorted R l -> Sorted R' l.
Proof.
  intros HR. induction 1 as [| x l Hs IH Hh]; constructor; [exact IH |].
  destruct Hh; constructor; auto.
Qed.

Lemma firstn_min_len {B : Type} (n : nat) (l : list B) :
  firstn n l = firstn (Nat.min n (length l)) l.
Proof.
  revert n. induction l as [| x l IH]; intros [| n]; simpl; auto.
  now rewrite <- IH.
Qed.

Section PagingFacts.
Context {A : Type} (getTime : A -> Z) (perPage : nat).

Lemma sort_desc_perm (items : list A) : Permutation (sort_desc getTime items) items.
Proof.
  unfold sort_desc.
  rewrite (sort_by_ext _ (fun a b => (fun x => - getTime x) a - (fun x => - getTime x) b))
    by (intros; lia).
  apply sort_by_perm.
Qed.

Lemma sort_desc_sorted (items : list A) :
  Sorted (fun a b => getTime b <= getTime a) (sort_desc getTime items).
Proof.
  unfold sort_desc.
  rewrite (sort_by_ext _ (fun a b => (fun x => - getTime x) a - (fun x => - getTime x) b))
    by (intros; lia).
  eapply Sorted_weaken; [| apply sort_by_sorted]. simpl. intros; lia.
Qed.

Lemma current_slice (items : list A) (p : nat) :
  (1 <= p)%nat ->
  currentItems getTime perPage items p =
  slice (sort_desc getTime items) ((p - 1) * perPage) (Nat.min (p * perPage) (length items)).
Proof.
  intros Hp. unfold currentItems, slice.
  rewrite Nat.mul_sub_distr_r, Nat.mul_1_l.
  rewrite (firstn_min_len (p * perPage - _)),
          (firstn_min_len (Nat.min _ _ - _)), length_skipn.
  rewrite (Permutation_length (sort_desc_perm items)).
  f_equal. set (X := (p * perPage)%nat). lia.
Qed.

Lemma current_length (items : list A) (p : nat) :
  (length (currentItems getTime perPage items p) <= perPage)%nat.
Proof.
  unfold currentItems, slice. etransitivity; [apply firstn_le_length |].
  set (X := (p * perPage)%nat). lia.
Qed.

Lemma pages_concat_aux (n : nat) (s : list A) :
  (length s <= n * perPage)%nat ->
  concat (map (fun i => firstn perPage (skipn (i * perPage) s)) (seq 0 n)) = s.
Proof.
  revert s. induction n as [| n IH]; intros s Hs.
  - destruct s; simpl in *; [reflexivity | lia].
  - simpl. rewrite <- seq_shift, map_map.
    rewrite (map_ext _ (fun i => firstn perPage (skipn (i * perPage) (skipn perPage s)))).
    + rewrite IH; [apply firstn_skipn |]. rewrite length_skipn. lia.
    + intros i. rewrite skipn_skipn. do 2 f_equal. lia.
Qed.

Lemma pages_concat (items : list A) :
  (0 < perPage)%nat ->
  concat (map (currentItems getTime perPage items) (seq 1 (totalPages perPage items))) =
  sort_desc getTime items.
Proof.
  intros Hpp. rewrite <- seq_shift, map_map.
  rewrite (map_ext _ (fun i => firstn perPage (skipn (i * perPage) (sort_desc getTime items)))).
  - apply pages_concat_aux.
    rewrite (Permutation_length (sort_desc_perm items)). unfold totalPages.
    set (x := (length items + perPage - 1)%nat).
    pose proof (Nat.div_mod x perPage ltac:(lia)) as Hd.
    pose proof (Nat.mod_upper_bound x perPage ltac:(lia)) as Hm.
    unfold x in *. nia.
  - intros i. unfold currentItems, slice. f_equal; [| f_equal]; simpl; lia.
Qed.

End PagingFacts.

(** * Claim about the paginated lists *)

(** C10: for every list and every page [p] with
    [1 <= p <= ceil(length / pageSize)], the page shown is the slice from
    [(p-1) * pageSize] to [min(p * pageSize, length)] of the list sorted
    newest first; it has at most [pageSize] items (50 conversations, 25
    notes), and the pages [1 .. ceil(length / pageSize)] put end to end are
    exactly the sorted list, a permutation of the input. *)
Theorem pagination_partition (getTime : string -> Z)
    (conversations : list Conversations.ConversationInfo) (notes : list Notes.NoteInfo)
    (p q : nat) :
  (1 <= p <= totalPages Conversations.conversationsPerPage conversations)%nat ->
  (1 <= q <= totalPages Notes.notesPerPage notes)%nat ->
  let sc := sort_desc (fun c => getTime (Conversations.generated_at c)) conversations in
  let sn := sort_desc (fun n => getTime (Notes.created_at n)) notes in
  (Conversations.currentConversations getTime conversations p =
     slice sc ((p - 1) * 50) (Nat.min (p * 50) (length conversations)) /\
   (length (Conversations.currentConversations getTime conversations p) <= 50)%nat /\
   concat (map (Conversations.currentConversations getTime conversations)
     (seq 1 (totalPages Conversations.conversationsPerPage conversations))) = sc /\
   Sorted (fun a b => getTime (Conversations.generated_at b) <=
                      getTime (Conversations.generated_at a)) sc /\
   Permutation sc conversations) /\
  (Notes.currentNotes getTime notes q =
     slice sn ((q - 1) * 25) (Nat.min (q * 25) (length notes)) /\
   (length (Notes.currentNotes getTime notes q) <= 25)%nat /\
   concat (map (Notes.currentNotes getTime notes)
     (seq 1 (totalPages Notes.notesPerPage notes))) = sn /\
   Sorted (fun a b => getTime (Notes.created_at b) <= getTime (Notes.created_at a)) sn /\
   Permutation sn notes).
Proof.
  intros Hp Hq sc sn.
  split; (split; [apply current_slice; lia | split; [apply current_length |
    split; [apply pages_concat; cbv; lia |
    split; [apply sort_desc_sorted | apply sort_desc_perm]]]]).
Qed.

(** * Witnesses *)

Lemma boundary_counted_witness :
  exists row,
    hd_error (chartRows sample_parse hhmm_utc hhmm_utc (Some [sample_conv]) R12h
                1704196800000) = Some row /\
    timestamp row = 1704153600000 /\ (1 <= conversations row)%nat.
Proof.
  assert (H1 : In sample_conv [sample_conv]) by (simpl; auto).
  assert (H2 : sample_parse (created_at sample_conv) = Some 1704153600000) by reflexivity.
  assert (H3 : 1704153600000 = startTime (range_params hhmm_utc hhmm_utc R12h 1704196800000)
               \/ 1704153600000 = 1704196800000) by (left; vm_compute; reflexivity).
  destruct (boundary_counted sample_parse hhmm_utc hhmm_utc [sample_conv] R12h
              1704196800000 sample_conv 1704153600000 H1 H2 H3)
    as [_ (row & _ & Hts & Hc & Hhd)].
  exists row. split; [apply Hhd; vm_compute; reflexivity |].
  split; [rewrite Hts; vm_compute; reflexivity | exact Hc].
Defined.

Lemma keys_epoch_aligned_witness :
  In 1704193200000
    (map timestamp (chartRows (fun _ => None) hhmm_utc hhmm_utc (Some []) R12h 1704198600000)).
Proof.
  apply (keys_epoch_aligned (fun _ => None) hhmm_utc hhmm_utc [sample_conv] [] R12h
           1704196800000 1704198600000 1704193200000).
  - vm_compute. repeat (first [left; reflexivity | right]).
  - simpl. lia.
Defined.

Lemma invalid_date_dropped_witness :
  chartData sample_parse hhmm_utc hhmm_utc
    (Some [sample_conv; mkConversation "c2" "u2" "not a date"]) R7d 1704196800000 =
  chartData sample_parse hhmm_utc hhmm_utc (Some [sample_conv]) R7d 1704196800000.
Proof.
  apply (invalid_date_dropped sample_parse hhmm_utc hhmm_utc [sample_conv] []
           (mkConversation "c2" "u2" "not a date") R7d 1704196800000).
  reflexivity.
Defined.

Lemma chartData_functional_witness :
  chartData sample_parse hhmm_utc hhmm_utc (Some [sample_conv]) R1d 1704196800000 =
  chartData sample_parse hhmm_utc hhmm_utc
    (Some [mkConversation "c9" "u9" "2024-01-02T00:00:00Z"]) R1d 1704196800000.
Proof.
  apply chartData_functional. reflexivity.
Defined.

Lemma bucket_label_instant_witness :
  exists i : nat, (i <= steps R12h)%nat /\
    time (mkRow "00:30" 0 1704153600000) =
      hhmm_utc (startTime (range_params hhmm_utc hhmm_utc R12h 1704198600000)
                + Z.of_nat i * 3600000).
Proof.
  assert (H : In (mkRow "00:30" 0 1704153600000)
                (chartRows (fun _ => None) hhmm_utc hhmm_utc (Some []) R12h 1704198600000))
    by (vm_compute; left; reflexivity).
  destruct (bucket_label_instant (fun _ => None) hhmm_utc hhmm_utc [] R12h 1704198600000 _ H)
    as (i & Hi & Hl & _).
  exists i. split; [exact Hi | exact Hl].
Defined.

Lemma pagination_partition_witness :
  (length (Conversations.currentConversations (fun _ => 0%Z)
             (repeat sample_info 51) 2) <= 50)%nat /\
  Notes.currentNotes (fun _ => 0%Z) [sample_note] 1 = [sample_note].
Proof.
  assert (Hp : (1 <= 2 <= totalPages Conversations.conversationsPerPage
                             (repeat sample_info 51))%nat)
    by (split; apply Nat.leb_le; vm_compute; reflexivity).
  assert (Hq : (1 <= 1 <= totalPages Notes.notesPerPage [sample_note])%nat)
    by (split; apply Nat.leb_le; vm_compute; reflexivity).
  destruct (pagination_partition (fun _ => 0%Z) (repeat sample_info 51) [sample_note] 2 1 Hp Hq)
    as [(_ & Hlen & _) (Hn & _)].
  split; [exact Hlen | rewrite Hn; vm_compute; reflexivity].
Defined.

(** * Further properties of the bucketizer *)

(** ** Exact counts *)

Lemma map_get_incr (k k' : Z) (m : BucketMap) :
  map_get k (map_incr k' m) =
  option_map (fun b => if k =? k' then mkBucket (label b) (S (count b)) else b) (map_get k m).
Proof.
  induction m as [| [k0 v0] m IH]; simpl; [reflexivity |].
  destruct (Z.eqb_spec k' k0) as [Heq | Hne], (Z.eqb_spec k k0) as [Heq' | Hne'];
    simpl; subst.
  - now rewrite Z.eqb_refl.
  - rewrite (proj2 (Z.eqb_neq k k0) Hne'). now destruct (map_get k m).
  - now rewrite Z.eqb_refl, (proj2 (Z.eqb_neq k0 k') (not_eq_sym Hne)).
  - rewrite (proj2 (Z.eqb_neq k k0) Hne'). exact IH.
Qed.

(** After the counting loop, the bucket under [k] holds its initial count
    plus the number of conversations whose instant floors to [k]. *)
Lemma fold_count_get (pd : string -> option Z) (I : Z) (l : list Conversation)
    (m : BucketMap) (k : Z) :
  map_get k (fold_left (count_conv pd I) l m) =
  option_map (fun b => mkBucket (label b) (count b + length (filter (fun c =>
      match pd (created_at c) with Some t => floor_key t I =? k | None => false end) l)))
    (map_get k m).
Proof.
  revert m. induction l as [| c l IH]; intros m; simpl.
  - destruct (map_get k m) as [[lb n] |]; simpl; [now rewrite Nat.add_0_r | reflexivity].
  - rewrite IH. unfold count_conv. destruct (pd (created_at c)) as [t |]; [| reflexivity].
    destruct (Z.eqb_spec (floor_key t I) k) as [<- | Hne].
    + destruct (map_get (floor_key t I) m) as [b |] eqn:Hg; [| now rewrite Hg].
      rewrite map_get_incr, Hg, Z.eqb_refl. simpl. do 2 f_equal. lia.
    + destruct (map_get (floor_key t I) m); [| reflexivity].
      rewrite map_get_incr, (proj2 (Z.eqb_neq _ _) (not_eq_sym Hne)).
      now destruct (map_get k m).
Qed.

Lemma map_get_some_in (k : Z) (b : Bucket) (m : BucketMap) :
  map_get k m = Some b -> In (k, b) m.
Proof.
  induction m as [| [k0 v0] m IH]; simpl; [discriminate |].
  destruct (Z.eqb_spec k k0) as [-> | _]; [intros [= ->]; now left | auto].
Qed.

Lemma map_get_NoDup (k : Z) (b : Bucket) (m : BucketMap) :
  NoDup (keys m) -> In (k, b) m -> map_get k m = Some b.
Proof.
  induction m as [| [k0 v0] m IH]; simpl; [tauto |].
  intros Hnd Hin. inversion Hnd as [| ? ? Hnotin Hnd']; subst.
  destruct Hin as [[= -> ->] | Hin]; [now rewrite Z.eqb_refl |].
  destruct (Z.eqb_spec k k0) as [-> | _]; [| auto].
  exfalso. apply Hnotin. apply (in_map fst) in Hin. exact Hin.
Qed.

(** ** The keys as an arithmetic series *)

Lemma gen_keys_series (I : Z) (fmt : Z -> string) (n : nat) (cur : Z) :
  0 < I ->
  keys (gen I fmt n cur) = map (fun i => floor_key cur I + Z.of_nat i * I) (seq 0 n).
Proof.
  intros HI. revert cur. induction n as [| n IH]; intros cur; [reflexivity |].
  simpl. rewrite IH, <- seq_shift, map_map. f_equal; [lia |].
  apply map_ext. intros i. rewrite floor_key_step by exact HI. lia.
Qed.

Lemma series_NoDup (a I : Z) (s n : nat) :
  0 < I -> NoDup (map (fun i => a + Z.of_nat i * I) (seq s n)).
Proof.
  intros HI. revert s. induction n as [| n IH]; intros s; simpl; constructor; [| apply IH].
  rewrite in_map_iff. intros (i & Hi & Hin). apply in_seq in Hin. nia.
Qed.

Lemma final_buckets_NoDup pd tl dl history r now :
  NoDup (keys (final_buckets pd tl dl history r now)).
Proof.
  pose proof (range_interval_pos tl dl r now) as HI.
  rewrite final_buckets_keys, gen_keys_series by exact HI. now apply series_NoDup.
Qed.

(** X1: every row of the chart counts exactly the in-range conversations
    whose instant floors to the row's timestamp. *)
Theorem chartRows_count_exact (pd : string -> option Z) (tl dl : Z -> string)
    (history : list Conversation) (r : TimeRange) (now : Z) (row : Row) :
  In row (chartRows pd tl dl (Some history) r now) ->
  conversations row =
  length (filter (fun c => match pd (created_at c) with
                           | Some t => floor_key t (intervalMs (range_params tl dl r now))
                                       =? timestamp row
                           | None => false
                           end)
            (filter (in_range pd (startTime (range_params tl dl r now)) now) history)).
Proof.
  intros Hin. rewrite chartRows_final in Hin. unfold to_rows in Hin.
  apply in_map_iff in Hin as ([k b] & <- & Hkb). simpl.
  pose proof (map_get_NoDup _ _ _ (final_buckets_NoDup pd tl dl history r now) Hkb) as Hg.
  unfold final_buckets in Hg. cbv zeta in Hg.
  rewrite fold_count_get, init_buckets_range in Hg.
  destruct (map_get k (gen _ _ _ _)) as [b0 |] eqn:Hg0; [| discriminate].
  apply map_get_some_in, gen_in in Hg0 as (i & _ & _ & ->).
  simpl in Hg. injection Hg as <-. reflexivity.
Qed.

(** X2: the chart's timestamps are the gap-free series
    [floor(startTime) + i * intervalMs] for [i = 0 .. steps], and the last
    one is the interval that contains [now]. *)
Theorem chartRows_axis (pd : string -> option Z) (tl dl : Z -> string)
    (history : list Conversation) (r : TimeRange) (now : Z) :
  map timestamp (chartRows pd tl dl (Some history) r now) =
    map (fun i => floor_key (startTime (range_params tl dl r now))
                    (intervalMs (range_params tl dl r now))
                  + Z.of_nat i * intervalMs (range_params tl dl r now))
      (seq 0 (S (steps r))) /\
  last (map timestamp (chartRows pd tl dl (Some history) r now)) 0 =
    floor_key now (intervalMs (range_params tl dl r now)).
Proof.
  pose proof (range_interval_pos tl dl r now) as HI.
  pose proof (range_lookback tl dl r now) as HL.
  rewrite chartRows_timestamps, gen_keys_series by exact HI.
  split; [reflexivity |].
  rewrite seq_S, map_app. cbn [map]. rewrite last_last. simpl.
  rewrite <- (floor_key_step_n _ HI). f_equal. lia.
Qed.

(** * Further properties of the paginated views *)

(** ** Navigation buttons *)

Lemma click_in_range (tp p : Z) (a : PageAction) :
  1 <= p <= tp -> 1 <= click tp p a <= tp.
Proof.
  unfold click, nav_enabled, nav_step.
  destruct a; destruct (Z.eqb_spec p 1), (Z.eqb_spec p tp); simpl; lia.
Qed.

Lemma click_next (tp p : Z) : p <= tp -> click tp p NextPage = Z.min tp (p + 1).
Proof.
  unfold click, nav_enabled, nav_step. destruct (Z.eqb_spec p tp); simpl; lia.
Qed.

Lemma click_prev (p : Z) (tp : Z) : 1 <= p -> click tp p PrevPage = Z.max 1 (p - 1).
Proof.
  unfold click, nav_enabled, nav_step. destruct (Z.eqb_spec p 1); simpl; lia.
Qed.

(** X3: from a page in [[1, totalPages]], any sequence of clicks on First,
    Previous, Next and Last (disabled ones doing nothing) stays in
    [[1, totalPages]]. *)
Theorem clicks_in_range (tp : Z) (acts : list PageAction) (p : Z) :
  1 <= p <= tp -> 1 <= clicks tp acts p <= tp.
Proof.
  unfold clicks. revert p. induction acts as [| a acts IH]; intros p Hp; simpl; [exact Hp |].
  apply IH, click_in_range, Hp.
Qed.

(** X4: from a page [p] in [[1, totalPages]], [k] clicks on Next lead to
    page [min(totalPages, p + k)] and [k] clicks on Previous to page
    [max(1, p - k)]. *)
Theorem clicks_next_prev (tp p : Z) (k : nat) :
  1 <= p <= tp ->
  clicks tp (repeat NextPage k) p = Z.min tp (p + Z.of_nat k) /\
  clicks tp (repeat PrevPage k) p = Z.max 1 (p - Z.of_nat k).
Proof.
  unfold clicks. revert p. induction k as [| k IH]; intros p Hp; simpl; [split; lia |].
  rewrite click_next, click_prev by lia.
  destruct (IH (Z.min tp (p + 1))) as [Hn _]; [lia |].
  destruct (IH (Z.max 1 (p - 1))) as [_ Hp']; [lia |].
  rewrite Hn, Hp'. split; lia.
Qed.

(** ** The ["Showing a - b of n"] lines *)

(** On a page in [[1, totalPages]] the slice starts inside the list and holds
    [min(p * perPage, length) - (p - 1) * perPage] items. *)
Lemma page_length_exact {A : Type} (getTime : A -> Z) (perPage : nat) (items : list A)
    (p : nat) :
  (1 <= p <= totalPages perPage items)%nat ->
  ((p - 1) * perPage < length items)%nat /\
  length (currentItems getTime perPage items p) =
    (Nat.min (p * perPage) (length items) - (p - 1) * perPage)%nat.
Proof.
  intros Hp. destruct perPage as [| pp]; [unfold totalPages in Hp; simpl in Hp; lia |].
  assert (Hlt : ((p - 1) * S pp < length items)%nat).
  { unfold totalPages in Hp. set (x := (length items + S pp - 1)%nat) in Hp.
    pose proof (Nat.div_mod x (S pp) ltac:(lia)) as Hd.
    pose proof (Nat.mod_upper_bound x (S pp) ltac:(lia)) as Hm.
    unfold x in *. nia. }
  split; [exact Hlt |].
  rewrite current_slice by lia. unfold slice.
  rewrite length_firstn, length_skipn, (Permutation_length (sort_desc_perm getTime items)).
  lia.
Qed.

(** X5: [RecentConversations] and [NotesPage] show
    ["Showing a - b of n"] with [a] the 1-based position of the page's first
    item and [b] that of its last item in the sorted list, so [b - a + 1] is
    the number of items on the page, at least one, for every page in
    [[1, totalPages]]. *)
Theorem showing_range_page {A : Type} (getTime : A -> Z) (perPage : nat)
    (items : list A) (p : nat) :
  (1 <= p <= totalPages perPage items)%nat ->
  showing_range (Z.of_nat perPage) (Z.of_nat (length items)) (Z.of_nat p) =
    (Z.of_nat ((p - 1) * perPage) + 1,
     Z.of_nat ((p - 1) * perPage + length (currentItems getTime perPage items p))) /\
  (1 <= length (currentItems getTime perPage items p))%nat.
Proof.
  intros Hp. destruct (page_length_exact getTime perPage items p Hp) as [Hlt Hlen].
  rewrite Hlen. unfold showing_range.
  rewrite Nat.mul_sub_distr_r, Nat.mul_1_l in *.
  assert (Hpp : (0 < perPage)%nat)
    by (destruct perPage; [unfold totalPages in Hp; simpl in Hp |]; lia).
  assert (Hge : (perPage <= p * perPage)%nat) by nia.
  rewrite <- Nat2Z.inj_mul. set (X := (p * perPage)%nat) in *.
  split; [f_equal; lia | lia].
Qed.

(** ** [UserBackgroundInfo] *)

Lemma bg_current_generic (data : Background.StatTable) (p : nat) :
  Background.currentItems data p =
  currentItems (fun e => Background.count (snd e)) Background.itemsPerPage data p.
Proof.
  unfold Background.currentItems, Background.sortedItems, currentItems.
  now rewrite Nat.mul_sub_distr_r, Nat.mul_1_l.
Qed.

(** X6: in [UserBackgroundInfo], for every page [p] in
    [[1, ceil(entries / 25)]], the page is the slice from [(p - 1) * 25] to
    [min(p * 25, entries)] of the entries sorted by decreasing [count]; it
    has at most 25 entries, and the pages put end to end are the sorted
    entries, a permutation of the category's entries. *)
Theorem background_pagination (data : Background.StatTable) (p : nat) :
  (1 <= p <= totalPages Background.itemsPerPage data)%nat ->
  Background.currentItems data p =
    slice (Background.sortedItems data) ((p - 1) * 25) (Nat.min (p * 25) (length data)) /\
  (length (Background.currentItems data p) <= 25)%nat /\
  concat (map (Background.currentItems data) (seq 1 (totalPages Background.itemsPerPage data)))
    = Background.sortedItems data /\
  Sorted (fun a b => Background.count (snd b) <= Background.count (snd a))
    (Background.sortedItems data) /\
  Permutation (Background.sortedItems data) data.
Proof.
  intros Hp. rewrite !bg_current_generic.
  rewrite (map_ext (Background.currentItems data) _ (bg_current_generic data)).
  unfold Background.sortedItems.
  split; [apply current_slice; lia | split; [apply current_length |
    split; [apply pages_concat; cbv; lia |
    split; [apply sort_desc_sorted | apply sort_desc_perm]]]].
Qed.

(** X7: in [UserBackgroundInfo], on every page [p] in
    [[1, ceil(entries / 25)]], ["Showing a - b"] gives the 1-based positions
    of the page's first and last entries: [a = (p - 1) * 25 + 1] and
    [b - a + 1] is the number of entries on the page, at least one. *)
Theorem background_showing_range (data : Background.StatTable) (p : nat) :
  (1 <= p <= totalPages Background.itemsPerPage data)%nat ->
  showing_range_bg 25 (Z.of_nat (length data)) (Z.of_nat p) =
    (Z.of_nat ((p - 1) * 25) + 1,
     Z.of_nat ((p - 1) * 25 + length (Background.currentItems data p))) /\
  (1 <= length (Background.currentItems data p))%nat.
Proof.
  intros Hp. rewrite bg_current_generic.
  destruct (page_length_exact (fun e => Background.count (snd e)) _ data p Hp) as [Hlt Hlen].
  rewrite Hlen. unfold showing_range_bg, Background.itemsPerPage in *.
  split; [f_equal; lia | lia].
Qed.

(** X8: with an empty list the page count is 0; page 1 reads
    ["Showing 1 - 0 of 0"] in [RecentConversations] and [NotesPage] and
    ["Showing 0 - 0 of 0"] in [UserBackgroundInfo]; the always-visible Next
    button of the first two is enabled and moves to page 0, which reads
    ["Showing (1 - perPage) - 0 of 0"], and Previous brings it back to
    page 1. *)
Theorem empty_list_pages {A : Type} (perPage : nat) :
  (0 < perPage)%nat ->
  totalPages perPage (@nil A) = O /\
  showing_range (Z.of_nat perPage) 0 1 = (1, 0) /\
  showing_range_bg (Z.of_nat perPage) 0 1 = (0, 0) /\
  click (Z.of_nat (totalPages perPage (@nil A))) 1 NextPage = 0 /\
  showing_range (Z.of_nat perPage) 0 0 = (1 - Z.of_nat perPage, 0) /\
  click (Z.of_nat (totalPages perPage (@nil A))) 0 PrevPage = 1.
Proof.
  intros Hpp.
  assert (H0 : totalPages perPage (@nil A) = O).
  { unfold totalPages. simpl. apply Nat.div_small. lia. }
  rewrite H0. change (Z.of_nat O) with 0. unfold showing_range, showing_range_bg.
  split; [reflexivity |]. split; [f_equal; lia |]. split; [f_equal; lia |].
  split; [reflexivity |]. split; [f_equal; lia | reflexivity].
Qed.

(** * The loading progress of [App] *)

(** X9: after [setLoadingProgress(10)] and [k] calls of [updateProgress]
    the progress is [min(10 + 20 k, 90)]: it never decreases and never
    passes 90, which it reaches at the fourth call; only the final
    [setLoadingProgress(100)] shows completion. *)
Theorem progress_after_closed (k : nat) :
  progress_after k = Z.min (10 + 20 * Z.of_nat k) 90 /\
  progress_after k <= progress_after (S k) <= 90.
Proof.
  assert (H : forall n, progress_after n = Z.min (10 + 20 * Z.of_nat n) 90).
  { induction n as [| n IH]; [reflexivity |].
    unfold progress_after in *. simpl Nat.iter. rewrite IH. unfold updateProgress. lia. }
  rewrite !H. lia.
Qed.

(** * Fetching and rendering the dashboard *)

Section FetchRender.
Import Dashboard.

(** X10: once [fetchStats] has finished from a state whose stored stats are
    null, falsy or a stats object (the initial state among them), the
    loading view is gone; a non-OK response shows the error view with
    ["Failed to fetch stats: <status> <statusText>"] whatever its body; a
    thrown value that is not an [Error], whether [fetch] or
    [response.json()] throws it, shows ["Failed to fetch stats"]; an OK
    response whose JSON body is a stats object shows the dashboard of that
    object. *)
Theorem fetchStats_views (st : DashboardState) :
  stats st <> JOther ->
  (forall o, render (fetchStats o st) <> LoadingView) /\
  (forall status statusText body,
     render (fetchStats (HttpResponse false status statusText body) st) =
     ErrorView ("Failed to fetch stats: " ++ number_to_string status ++ " " ++ statusText)%string) /\
  render (fetchStats (NetworkFailure OtherValue) st) = ErrorView "Failed to fetch stats" /\
  (forall status statusText,
     render (fetchStats (HttpResponse true status statusText (JsonFailure OtherValue)) st) =
     ErrorView "Failed to fetch stats") /\
  (forall status statusText s,
     render (fetchStats (HttpResponse true status statusText (JsonParsed (JStats s))) st) =
     DashboardView s).
Proof.
  intros Hst. split; [| split; [| split; [| split]]].
  - intros o. unfold render, fetchStats.
    destruct (getStats o) as [v | [m |]]; cbn;
      [destruct v | destruct (String.eqb m EmptyString) |]; destruct (stats st); discriminate.
  - intros status statusText body. unfold render, fetchStats. cbn.
    destruct (stats st); congruence.
  - unfold render, fetchStats. cbn. destruct (stats st); congruence.
  - intros status statusText. unfold render, fetchStats. cbn.
    destruct (stats st); congruence.
  - reflexivity.
Qed.

(** X11: after [fetchStats] the component renders nothing ([return null])
    exactly when the server answered OK with a falsy JSON body ([null],
    [false], [0] or the empty string), or when the stored stats were falsy
    before and the thrown [Error] has an empty message (a network failure or
    a JSON parse failure): an empty message is falsy, so the error view is
    skipped. *)
Theorem fetchStats_blank (o : FetchOutcome) (st : DashboardState) :
  render (fetchStats o st) = BlankView <->
  (exists status statusText v,
     o = HttpResponse true status statusText (JsonParsed v) /\ json_truthy v = false) \/
  (json_truthy (stats st) = false /\
   (o = NetworkFailure (ErrorValue EmptyString) \/
    exists status statusText,
      o = HttpResponse true status statusText (JsonFailure (ErrorValue EmptyString)))).
Proof.
  destruct o as [[m |] | [] status txt [v | [m |]]]; unfold render, fetchStats, getStats;
    cbn; try destruct v; try destruct (String.eqb_spec m EmptyString); subst;
    destruct (stats st); cbn; split;
    try (intros [(a & b & v' & Ho & Hv) | (Hs & [Ho | (a & b & Ho)])];
         try (injection Ho; intros; subst); cbn in *; congruence).
  all: intros H; try discriminate H.
  all: first [ left; do 3 eexists; split; reflexivity
             | right; split; [reflexivity | left; reflexivity]
             | right; split; [reflexivity | right; do 2 eexists; reflexivity] ].
Qed.

End FetchRender.

(** * Stability of the list sorts *)

Lemma insert_by_filter {A : Type} (g : A -> Z) (v : Z) (x : A) (l : list A) :
  filter (fun y => g y =? v) (insert_by (fun a b => g a - g b) x l) =
  filter (fun y => g y =? v) (x :: l).
Proof.
  induction l as [| y l IH]; simpl; [reflexivity |].
  destruct (Z.leb_spec (g x - g y) 0); simpl; [reflexivity |].
  rewrite IH. simpl.
  destruct (Z.eqb_spec (g x) v), (Z.eqb_spec (g y) v); try reflexivity; lia.
Qed.

(** X13: the sorts of [RecentConversations], [NotesPage] and
    [UserBackgroundInfo] are stable: the items sharing one sort key (a
    timestamp, or a [count]) appear in the sorted list in their input
    order. *)
Theorem sort_desc_stable {A : Type} (getTime : A -> Z) (items : list A) (v : Z) :
  filter (fun e => getTime e =? v) (sort_desc getTime items) =
  filter (fun e => getTime e =? v) items.
Proof.
  unfold sort_desc.
  rewrite (sort_by_ext _ (fun a b => (fun x => - getTime x) a - (fun x => - getTime x) b))
    by (intros; lia).
  rewrite (filter_ext (fun e => getTime e =? v) (fun e => (fun x => - getTime x) e =? - v))
    by (intros a; destruct (Z.eqb_spec (getTime a) v), (Z.eqb_spec (- getTime a) (- v));
        reflexivity || lia).
  induction items as [| x items IH]; simpl; [reflexivity |].
  rewrite insert_by_filter. simpl. rewrite IH.
  destruct (Z.eqb_spec (- getTime x) (- v)), (Z.eqb_spec (getTime x) v);
    reflexivity || lia.
Qed.

(** * Witnesses of the further properties *)

Lemma chartRows_count_exact_witness :
  conversations (mkRow "00:00" 1 1704153600000) =
  length (filter (fun c => match sample_parse (created_at c) with
                           | Some t => floor_key t (intervalMs (range_params hhmm_utc hhmm_utc
                                         R12h 1704196800000)) =? 1704153600000
                           | None => false
                           end)
            (filter (in_range sample_parse (startTime (range_params hhmm_utc hhmm_utc R12h
                       1704196800000)) 1704196800000) [sample_conv])).
Proof.
  assert (H : In (mkRow "00:00" 1 1704153600000)
                (chartRows sample_parse hhmm_utc hhmm_utc (Some [sample_conv]) R12h
                   1704196800000)) by (vm_compute; left; reflexivity).
  exact (chartRows_count_exact sample_parse hhmm_utc hhmm_utc [sample_conv] R12h
           1704196800000 _ H).
Defined.

Lemma clicks_in_range_witness :
  1 <= clicks 3 [NextPage; NextPage; NextPage; LastPage; PrevPage; FirstPage; PrevPage] 1 <= 3.
Proof. apply clicks_in_range. lia. Defined.

Lemma clicks_next_prev_witness :
  clicks 5 (repeat NextPage 10) 2 = Z.min 5 (2 + Z.of_nat 10) /\
  clicks 5 (repeat PrevPage 10) 2 = Z.max 1 (2 - Z.of_nat 10).
Proof. apply clicks_next_prev. lia. Defined.

Lemma showing_range_page_witness :
  showing_range (Z.of_nat Conversations.conversationsPerPage)
    (Z.of_nat (length (repeat sample_info 51))) (Z.of_nat 2) =
    (Z.of_nat ((2 - 1) * Conversations.conversationsPerPage) + 1,
     Z.of_nat ((2 - 1) * Conversations.conversationsPerPage +
       length (currentItems (fun c => 0%Z) Conversations.conversationsPerPage
                 (repeat sample_info 51) 2))) /\
  (1 <= length (currentItems (fun c => 0%Z) Conversations.conversationsPerPage
                  (repeat sample_info 51) 2))%nat.
Proof.
  apply showing_range_page. split; apply Nat.leb_le; vm_compute; reflexivity.
Defined.

Lemma background_pagination_witness :
  (length (Background.currentItems sample_table 1) <= 25)%nat /\
  Background.currentItems sample_table 1 = rev sample_table.
Proof.
  assert (Hp : (1 <= 1 <= totalPages Background.itemsPerPage sample_table)%nat)
    by (split; apply Nat.leb_le; vm_compute; reflexivity).
  destruct (background_pagination sample_table 1 Hp) as (Hs & Hl & _).
  split; [exact Hl | rewrite Hs; vm_compute; reflexivity].
Defined.

Lemma background_showing_range_witness :
  showing_range_bg 25 (Z.of_nat (length sample_table)) (Z.of_nat 1) =
    (Z.of_nat ((1 - 1) * 25) + 1,
     Z.of_nat ((1 - 1) * 25 + length (Background.currentItems sample_table 1))) /\
  (1 <= length (Background.currentItems sample_table 1))%nat.
Proof.
  apply background_showing_range. split; apply Nat.leb_le; vm_compute; reflexivity.
Defined.

Lemma empty_list_pages_witness :
  totalPages Notes.notesPerPage (@nil Notes.NoteInfo) = O /\
  showing_range (Z.of_nat Notes.notesPerPage) 0 1 = (1, 0) /\
  showing_range_bg (Z.of_nat Notes.notesPerPage) 0 1 = (0, 0) /\
  click (Z.of_nat (totalPages Notes.notesPerPage (@nil Notes.NoteInfo))) 1 NextPage = 0 /\
  showing_range (Z.of_nat Notes.notesPerPage) 0 0 = (1 - Z.of_nat Notes.notesPerPage, 0) /\
  click (Z.of_nat (totalPages Notes.notesPerPage (@nil Notes.NoteInfo))) 0 PrevPage = 1.
Proof. apply empty_list_pages. vm_compute. lia. Defined.

Lemma fetchStats_views_witness :
  Dashboard.stats Dashboard.initialState <> Dashboard.JOther /\
  Dashboard.render
    (Dashboard.fetchStats (Dashboard.NetworkFailure Dashboard.OtherValue) Dashboard.initialState) =
  Dashboard.ErrorView "Failed to fetch stats"%string.
Proof.
  assert (H : Dashboard.stats Dashboard.initialState <> Dashboard.JOther) by discriminate.
  split; [exact H | apply (fetchStats_views Dashboard.initialState H)].
Defined.

(** * The two charts of the second [DashboardEntry] *)

Lemma to_rows_times (m : BucketMap) : map time (to_rows m) = map snd (labels m).
Proof. induction m as [| [k b] m IH]; simpl; congruence. Qed.

(** The chart's labels depend only on the range and [now]. *)
Lemma chartData_times pd tl dl history r now :
  map fst (chartData pd tl dl (Some history) r now) =
  map snd (labels (init_buckets (range_params tl dl r now) now)).
Proof.
  unfold chartData. rewrite chartRows_final, map_map.
  rewrite (map_ext _ time) by reflexivity. rewrite to_rows_times.
  unfold final_buckets. now rewrite fold_count_labels.
Qed.

Lemma chartData_total pd tl dl history r now :
  list_sum (map snd (chartData pd tl dl (Some history) r now)) =
  length (filter (in_range pd (startTime (range_params tl dl r now)) now) history).
Proof.
  set (p := range_params tl dl r now).
  unfold chartData. rewrite chartRows_final, map_map.
  rewrite (map_ext _ conversations) by reflexivity. rewrite to_rows_sum.
  unfold final_buckets. fold p. rewrite fold_count_sum.
  - unfold p. rewrite init_buckets_range, gen_sum. reflexivity.
  - intros c Hc. apply filter_In in Hc as [_ Hc].
    unfold in_range in Hc. destruct (pd (created_at c)) as [t |]; [| discriminate].
    apply andb_true_iff in Hc as [H1 H2]. apply Z.leb_le in H1, H2.
    exists t. split; [reflexivity |]. now apply range_coverage.
Qed.

Lemma fold_count_user pd I (l : list Dashboard.UserTimeline) (m : BucketMap) :
  fold_left (count_user pd I) l m =
  fold_left (count_conv pd I)
    (map (fun u => mkConversation EmptyString (Dashboard.user_id u) (Dashboard.created_at u)) l) m.
Proof. revert m. induction l as [| u l IH]; intros m; simpl; [reflexivity | apply IH]. Qed.

Lemma filter_user pd start now (l : list Dashboard.UserTimeline) :
  map (fun u => mkConversation EmptyString (Dashboard.user_id u) (Dashboard.created_at u))
    (filter (user_in_range pd start now) l) =
  filter (in_range pd start now)
    (map (fun u => mkConversation EmptyString (Dashboard.user_id u) (Dashboard.created_at u)) l).
Proof.
  induction l as [| u l IH]; simpl; [reflexivity |].
  change (in_range pd start now _) with (user_in_range pd start now u).
  destruct (user_in_range pd start now u); simpl; congruence.
Qed.

(** X14: in the second [DashboardEntry], the conversation chart is the
    [chartData] of the first one; the user chart has the same time labels,
    in the same order; and its counts add up to the number of users whose
    [created_at] lies in [[startTime, now]], an absent
    [all_users_timeline] counting as no user. *)
Theorem processTimelineData_charts (pd : string -> option Z) (tl dl : Z -> string)
    (s : Dashboard.StatsResponse) (r : TimeRange) (now : Z) :
  snd (processTimelineData pd tl dl (Some s) r now) =
    chartData pd tl dl (Some (Dashboard.conversation_history s)) r now /\
  map fst (fst (processTimelineData pd tl dl (Some s) r now)) =
    map fst (snd (processTimelineData pd tl dl (Some s) r now)) /\
  list_sum (map snd (fst (processTimelineData pd tl dl (Some s) r now))) =
    length (filter (user_in_range pd (startTime (range_params tl dl r now)) now)
              (match Dashboard.all_users_timeline s with Some l => l | None => [] end)).
Proof.
  set (users := match Dashboard.all_users_timeline s with Some l => l | None => [] end).
  set (conv := fun u => mkConversation EmptyString (Dashboard.user_id u) (Dashboard.created_at u)).
  assert (Hc : snd (processTimelineData pd tl dl (Some s) r now) =
               chartData pd tl dl (Some (Dashboard.conversation_history s)) r now)
    by reflexivity.
  assert (Hu : fst (processTimelineData pd tl dl (Some s) r now) =
               chartData pd tl dl (Some (map conv users)) r now).
  { unfold processTimelineData, chartData, chartRows. cbn zeta. cbn [fst].
    rewrite fold_count_user. fold users. fold conv. now rewrite filter_user. }
  split; [exact Hc |]. rewrite Hu, Hc, !chartData_times, chartData_total.
  split; [reflexivity |]. rewrite <- filter_user, length_map. reflexivity.
Qed.
